(** * The interactions worker: authentication and command dispatch

    A shallow embedding of [src/worker.js]: the [fetch] entry point, the
    [COMMAND_HANDLERS] table, the five command handlers and the two
    response helpers, together with the part of the ECMAScript semantics
    the code relies on (property reads, truthiness, string conversion,
    [Array.prototype.find], optional chaining, [JSON.stringify] and the
    properties every object literal inherits from [Object.prototype]).

    The two collaborators the worker does not define, [verifyKey] of the
    [discord-interactions] package and the platform's [JSON.parse], are
    section variables of the development. *)

From Stdlib Require Import String Ascii List ZArith Bool Lia DecimalString.
Import ListNotations.

#[local] Open Scope string_scope.
#[local] Open Scope Z_scope.

(** ** JavaScript values *)

(** The values [JSON.parse] can produce and the object literals the worker
    builds, with [undefined] for absent properties.  Numbers are the
    integer-valued ones: every numeric literal of the source is an integer
    and the discriminator is only compared with [1] and [2].  Of these a
    double holds exactly those of magnitude below [2^53]; a statement that
    depends on how a number is written says so ([writes_in_full]).  An
    object is the list of its own properties in insertion order, one entry
    per key. *)
#[local] Unset Elimination Schemes.
Inductive JsValue : Type :=
| JUndefined
| JNull
| JBool (b : bool)
| JNum (z : Z)
| JStr (s : string)
| JArr (elems : list JsValue)
| JObj (props : list (string * JsValue)).
#[local] Set Elimination Schemes.

(** What a [throw] carries; messages are not modelled. *)
Inductive JsError : Type :=
| SyntaxError
| TypeError.

(** The outcome of evaluating an expression, or the settled state of the
    promise an [async] function returns. *)
Inductive Completion (A : Type) : Type :=
| Fulfilled (a : A)
| Rejected (e : JsError).

Arguments Fulfilled {A} a.
Arguments Rejected {A} e.

Module Js.

(** The double quote character, and a string holding just it. *)
Definition dquote_char : ascii := ascii_of_nat 34.
Definition dq : string := String dquote_char EmptyString.

(** [ToBoolean]. *)
Definition truthy (v : JsValue) : bool :=
  match v with
  | JUndefined | JNull => false
  | JBool b => b
  | JNum z => negb (z =? 0)
  | JStr s => negb (s =? "")%string
  | JArr _ | JObj _ => true
  end.

(** Own property lookup. *)
Fixpoint own (props : list (string * JsValue)) (key : string) : option JsValue :=
  match props with
  | [] => None
  | (k, v) :: rest => if (k =? key)%string then Some v else own rest key
  end.

(** The property read [v.key], for the keys the worker reads:
    [type], [data], [name], [options] and [value].  No built-in prototype
    defines any of these, so on an object the read is an own property
    lookup, on any other value but [undefined] and [null] it gives
    [undefined], and on those two it throws. *)
Definition get (v : JsValue) (key : string) : Completion JsValue :=
  match v with
  | JUndefined | JNull => Rejected TypeError
  | JObj props =>
      match own props key with
      | Some x => Fulfilled x
      | None => Fulfilled JUndefined
      end
  | _ => Fulfilled JUndefined
  end.

(** [v === s] for a string [s], [v === n] for a number [n]. *)
Definition strict_eq_str (v : JsValue) (s : string) : bool :=
  match v with
  | JStr t => (t =? s)%string
  | _ => false
  end.

Definition strict_eq_num (v : JsValue) (n : Z) : bool :=
  match v with
  | JNum z => z =? n
  | _ => false
  end.

(** [Number::toString] on an integer: its decimal numeral.  That is what
    ECMAScript writes for an integer of magnitude below [10^21]; from there
    on it writes an exponent, which this function does not.  The integers a
    double holds one by one, those of magnitude below [2^53], are within
    the range. *)
Definition number_to_string (z : Z) : string :=
  NilZero.string_of_int (Z.to_int z).

Definition join_with (sep : string) (parts : list string) : string :=
  String.concat sep parts.

(** [ToString], as a template literal and a computed property key apply
    it.  An array goes through [Array.prototype.join]: [undefined] and
    [null] elements give the empty string.  An object goes through
    [OrdinaryToPrimitive]: with no own [toString] the inherited one
    answers ["[object Object]"]; an own [toString] is data, not callable,
    and the [valueOf] tried next gives no primitive, so it throws. *)
Fixpoint to_string (v : JsValue) : Completion string :=
  match v with
  | JUndefined => Fulfilled "undefined"
  | JNull => Fulfilled "null"
  | JBool true => Fulfilled "true"
  | JBool false => Fulfilled "false"
  | JNum z => Fulfilled (number_to_string z)
  | JStr s => Fulfilled s
  | JArr elems =>
      let fix parts (l : list JsValue) : Completion (list string) :=
        match l with
        | [] => Fulfilled []
        | e :: rest =>
            let first :=
              match e with
              | JUndefined | JNull => Fulfilled ""
              | _ => to_string e
              end in
            match first with
            | Rejected err => Rejected err
            | Fulfilled s =>
                match parts rest with
                | Rejected err => Rejected err
                | Fulfilled ss => Fulfilled (s :: ss)
                end
            end
        end in
      match parts elems with
      | Rejected err => Rejected err
      | Fulfilled ss => Fulfilled (join_with "," ss)
      end
  | JObj props =>
      match own props "toString" with
      | None => Fulfilled "[object Object]"
      | Some _ => Rejected TypeError
      end
  end.

(** [Array.prototype.find] with a callback that may throw. *)
Fixpoint array_find (cb : JsValue -> Completion bool) (l : list JsValue)
  : Completion JsValue :=
  match l with
  | [] => Fulfilled JUndefined
  | e :: rest =>
      match cb e with
      | Rejected err => Rejected err
      | Fulfilled true => Fulfilled e
      | Fulfilled false => array_find cb rest
      end
  end.

(** The method call [v?.find(cb)]: short-circuits to [undefined] on
    [undefined] and [null], runs [Array.prototype.find] on an array, and
    throws on anything else, whose [find] property is not a function. *)
Definition opt_find (v : JsValue) (cb : JsValue -> Completion bool)
  : Completion JsValue :=
  match v with
  | JUndefined | JNull => Fulfilled JUndefined
  | JArr l => array_find cb l
  | _ => Rejected TypeError
  end.

(** The optional read [v?.key]. *)
Definition opt_get (v : JsValue) (key : string) : Completion JsValue :=
  match v with
  | JUndefined | JNull => Fulfilled JUndefined
  | _ => get v key
  end.

End Js.

(** ** [JSON.stringify] *)

Module JSON.

Definition hex_digit (n : nat) : ascii :=
  match n with
  | 0%nat => "0" | 1%nat => "1" | 2%nat => "2" | 3%nat => "3"
  | 4%nat => "4" | 5%nat => "5" | 6%nat => "6" | 7%nat => "7"
  | 8%nat => "8" | 9%nat => "9" | 10%nat => "a" | 11%nat => "b"
  | 12%nat => "c" | 13%nat => "d" | 14%nat => "e" | _ => "f"
  end%char.

(** One code unit of [QuoteJSONString]: the quote and the reverse solidus
    are escaped, the control characters get their short form or
    [\u00xx], every other unit stands for itself. *)
Definition escape_char (c : ascii) : string :=
  let n := nat_of_ascii c in
  let bs := String (ascii_of_nat 92) EmptyString in
  if (n =? 34)%nat then bs ++ Js.dq
  else if (n =? 92)%nat then bs ++ bs
  else if (n =? 8)%nat then bs ++ "b"
  else if (n =? 9)%nat then bs ++ "t"
  else if (n =? 10)%nat then bs ++ "n"
  else if (n =? 12)%nat then bs ++ "f"
  else if (n =? 13)%nat then bs ++ "r"
  else if (n <? 32)%nat then
    bs ++ "u00" ++ String (hex_digit (n / 16)) (String (hex_digit (n mod 16)) EmptyString)
  else String c EmptyString.

Fixpoint escape (s : string) : string :=
  match s with
  | EmptyString => EmptyString
  | String c rest => escape_char c ++ escape rest
  end.

Definition quote (s : string) : string := Js.dq ++ escape s ++ Js.dq.

(** [JSON.stringify(v)]: [None] is the [undefined] it answers for
    [undefined].  Inside an array [undefined] is written [null]; a property
    whose value is [undefined] is left out. *)
Fixpoint stringify (v : JsValue) : option string :=
  match v with
  | JUndefined => None
  | JNull => Some "null"
  | JBool true => Some "true"
  | JBool false => Some "false"
  | JNum z => Some (Js.number_to_string z)
  | JStr s => Some (quote s)
  | JArr elems =>
      let fix items (l : list JsValue) : list string :=
        match l with
        | [] => []
        | e :: rest =>
            match stringify e with
            | Some s => s :: items rest
            | None => "null" :: items rest
            end
        end in
      Some ("[" ++ Js.join_with "," (items elems) ++ "]")
  | JObj props =>
      let fix members (l : list (string * JsValue)) : list string :=
        match l with
        | [] => []
        | (k, x) :: rest =>
            match stringify x with
            | Some s => (quote k ++ ":" ++ s) :: members rest
            | None => members rest
            end
        end in
      Some ("{" ++ Js.join_with "," (members props) ++ "}")
  end.

End JSON.

(** ** Reading JSON text *)

(** A reader of JSON text, used to run the worker on concrete request
    bodies and to look inside the bodies it answers.  It decides the
    grammar of JSON except for two forms it does not evaluate and reports
    as [POutside]: a number with a fraction or an exponent, and a [\u]
    escape in a string.  A repeated key keeps its first position and takes
    the last value. *)
Module JsonText.

Inductive Parsed (A : Type) : Type :=
| POk (a : A)
| PSyntaxError
| POutside.

Arguments POk {A} a.
Arguments PSyntaxError {A}.
Arguments POutside {A}.

Definition code (c : ascii) : nat := nat_of_ascii c.

Definition is_ws (c : ascii) : bool :=
  let n := code c in
  ((n =? 32) || (n =? 9) || (n =? 10) || (n =? 13))%nat.

Fixpoint skip_ws (s : string) : string :=
  match s with
  | String c rest => if is_ws c then skip_ws rest else s
  | EmptyString => s
  end.

Definition digit_value (c : ascii) : option Z :=
  let n := code c in
  if ((48 <=? n) && (n <=? 57))%nat then Some (Z.of_nat (n - 48)) else None.

Fixpoint digits (acc : Z) (s : string) : Z * string :=
  match s with
  | String c rest =>
      match digit_value c with
      | Some d => digits (10 * acc + d) rest
      | None => (acc, s)
      end
  | EmptyString => (acc, s)
  end.

(** After the integer part: a fraction or an exponent is not evaluated,
    nor an integer of magnitude [2^53] or more, which [JSON.parse] rounds
    to the nearest double. *)
Definition integer_end (z : Z) (s : string) : Parsed (Z * string) :=
  if 2 ^ 53 <=? z then POutside
  else
    match s with
    | String c _ =>
        let n := code c in
        if ((n =? 46) || (n =? 101) || (n =? 69))%nat then POutside else POk (z, s)
    | EmptyString => POk (z, s)
    end.

(** [0], or a non-zero digit followed by digits. *)
Definition unsigned (s : string) : Parsed (Z * string) :=
  match s with
  | String c rest =>
      match digit_value c with
      | Some 0 =>
          match rest with
          | String c' _ =>
              match digit_value c' with
              | Some _ => PSyntaxError
              | None => integer_end 0 rest
              end
          | EmptyString => POk (0, rest)
          end
      | Some d => let (z, rest') := digits d rest in integer_end z rest'
      | None => PSyntaxError
      end
  | EmptyString => PSyntaxError
  end.

(** The character an escape stands for; [Some None] is [\u]. *)
Definition unescape (c : ascii) : option (option ascii) :=
  let n := code c in
  if (n =? 34)%nat then Some (Some c)
  else if (n =? 92)%nat then Some (Some c)
  else if (n =? 47)%nat then Some (Some c)
  else if (n =? 98)%nat then Some (Some (ascii_of_nat 8))
  else if (n =? 102)%nat then Some (Some (ascii_of_nat 12))
  else if (n =? 110)%nat then Some (Some (ascii_of_nat 10))
  else if (n =? 114)%nat then Some (Some (ascii_of_nat 13))
  else if (n =? 116)%nat then Some (Some (ascii_of_nat 9))
  else if (n =? 117)%nat then Some None
  else None.

(** The characters of a string, after its opening quote. *)
Fixpoint string_body (s : string) : Parsed (string * string) :=
  match s with
  | EmptyString => PSyntaxError
  | String c rest =>
      let n := code c in
      if (n =? 34)%nat then POk (EmptyString, rest)
      else if (n =? 92)%nat then
        match rest with
        | EmptyString => PSyntaxError
        | String e rest' =>
            match unescape e with
            | None => PSyntaxError
            | Some None => POutside
            | Some (Some c') =>
                match string_body rest' with
                | POk (t, r) => POk (String c' t, r)
                | PSyntaxError => PSyntaxError
                | POutside => POutside
                end
            end
        end
      else if (n <? 32)%nat then PSyntaxError
      else
        match string_body rest with
        | POk (t, r) => POk (String c t, r)
        | PSyntaxError => PSyntaxError
        | POutside => POutside
        end
  end.

(** [s] starts with [word]: what follows it. *)
Fixpoint after_word (word s : string) : option string :=
  match word, s with
  | EmptyString, _ => Some s
  | String a word', String b s' => if (a =? b)%char then after_word word' s' else None
  | String _ _, EmptyString => None
  end.

Definition literal (s : string) : Parsed (JsValue * string) :=
  match after_word "true" s with
  | Some r => POk (JBool true, r)
  | None =>
      match after_word "false" s with
      | Some r => POk (JBool false, r)
      | None =>
          match after_word "null" s with
          | Some r => POk (JNull, r)
          | None => PSyntaxError
          end
      end
  end.

(** Defining a property: a key already there keeps its place. *)
Fixpoint define (props : list (string * JsValue)) (key : string) (v : JsValue)
  : list (string * JsValue) :=
  match props with
  | [] => [(key, v)]
  | (k, x) :: rest =>
      if (k =? key)%string then (k, v) :: rest else (k, x) :: define rest key v
  end.

Fixpoint value (fuel : nat) (s : string) : Parsed (JsValue * string) :=
  match fuel with
  | O => POutside
  | S f =>
      match skip_ws s with
      | EmptyString => PSyntaxError
      | String c rest =>
          let n := code c in
          if (n =? 123)%nat then
            match skip_ws rest with
            | String c' rest' =>
                if (code c' =? 125)%nat then POk (JObj [], rest') else members f rest []
            | EmptyString => PSyntaxError
            end
          else if (n =? 91)%nat then
            match skip_ws rest with
            | String c' rest' =>
                if (code c' =? 93)%nat then POk (JArr [], rest') else elements f rest []
            | EmptyString => PSyntaxError
            end
          else if (n =? 34)%nat then
            match string_body rest with
            | POk (t, r) => POk (JStr t, r)
            | PSyntaxError => PSyntaxError
            | POutside => POutside
            end
          else if (n =? 45)%nat then
            match unsigned rest with
            | POk (z, r) => POk (JNum (- z), r)
            | PSyntaxError => PSyntaxError
            | POutside => POutside
            end
          else
            match digit_value c with
            | Some _ =>
                match unsigned (String c rest) with
                | POk (z, r) => POk (JNum z, r)
                | PSyntaxError => PSyntaxError
                | POutside => POutside
                end
            | None => literal (String c rest)
            end
      end
  end
with elements (fuel : nat) (s : string) (acc : list JsValue)
  : Parsed (JsValue * string) :=
  match fuel with
  | O => POutside
  | S f =>
      match value f s with
      | POk (v, r) =>
          match skip_ws r with
          | String c r' =>
              if (code c =? 44)%nat then elements f r' (acc ++ [v])
              else if (code c =? 93)%nat then POk (JArr (acc ++ [v]), r')
              else PSyntaxError
          | EmptyString => PSyntaxError
          end
      | PSyntaxError => PSyntaxError
      | POutside => POutside
      end
  end
with members (fuel : nat) (s : string) (acc : list (string * JsValue))
  : Parsed (JsValue * string) :=
  match fuel with
  | O => POutside
  | S f =>
      match skip_ws s with
      | String q r0 =>
          if (code q =? 34)%nat then
            match string_body r0 with
            | POk (k, r1) =>
                match skip_ws r1 with
                | String colon r2 =>
                    if (code colon =? 58)%nat then
                      match value f r2 with
                      | POk (v, r3) =>
                          match skip_ws r3 with
                          | String c r4 =>
                              if (code c =? 44)%nat then members f r4 (define acc k v)
                              else if (code c =? 125)%nat then POk (JObj (define acc k v), r4)
                              else PSyntaxError
                          | EmptyString => PSyntaxError
                          end
                      | PSyntaxError => PSyntaxError
                      | POutside => POutside
                      end
                    else PSyntaxError
                | EmptyString => PSyntaxError
                end
            | PSyntaxError => PSyntaxError
            | POutside => POutside
            end
          else PSyntaxError
      | EmptyString => PSyntaxError
      end
  end.

(** A whole text: one value, then nothing but white space. *)
Definition parse (s : string) : Parsed JsValue :=
  match value (2 * String.length s + 2) s with
  | POk (v, r) =>
      match skip_ws r with
      | EmptyString => POk v
      | String _ _ => PSyntaxError
      end
  | PSyntaxError => PSyntaxError
  | POutside => POutside
  end.

(** Writing JSON text in a string literal: every apostrophe stands for a
    double quote. *)
Fixpoint text_of (s : string) : string :=
  match s with
  | EmptyString => EmptyString
  | String c rest =>
      String (if (code c =? 39)%nat then Js.dquote_char else c) (text_of rest)
  end.

End JsonText.

(** ** Requests, responses and the environment *)

(** [request.headers]: the [Headers] object, through its [get] method,
    which answers [null] (here [None]) for a header the request lacks. *)
Definition Headers : Type := string -> option string.

Record Request : Type := mkRequest {
  method : string;
  headers : Headers;
  text : string
}.

(** The bindings passed to [fetch]. *)
Record Env : Type := mkEnv {
  DISCORD_PUBLIC_KEY : JsValue
}.

(** [new Response(body, { status, headers })], with the headers of the
    init dictionary; a [None] body is the empty body of
    [new Response(undefined)]. *)
Record Response : Type := mkResponse {
  body : option string;
  status : Z;
  init_headers : list (string * string)
}.

(** What the promise of [fetch] or of a handler resolves to: a [Response],
    or, when the callee is not one of the worker's handlers, some other
    value: a plain value [v] or the wrapper object [Object(v)] of a
    primitive. *)
Inductive Returned : Type :=
| RetResponse (r : Response)
| RetValue (v : JsValue)
| RetBoxed (v : JsValue).

(** ** The module scope and the effects of a run *)

(** A function value, by reference. *)
Inductive FunctionRef : Type :=
| Fn_handlePingCommand
| Fn_handleLoginCommand
| Fn_handleStartShiftCommand
| Fn_handleEndShiftCommand
| Fn_handleShiftStatusCommand
| Fn_Object
| Fn_Object_prototype_toString
| Fn_Object_prototype_isPrototypeOf
| Fn_Object_prototype_method (name : string).

(** What a read of [COMMAND_HANDLERS[key]] can find: a function, or the
    prototype object itself (under [__proto__]), which is not callable. *)
Inductive PropertyValue : Type :=
| PFunction (f : FunctionRef)
| PObjectPrototype.

(** The state the module keeps between requests: the one object its
    top level creates. *)
Record Store : Type := mkStore {
  COMMAND_HANDLERS : list (string * FunctionRef)
}.

(** The calls the worker makes on its collaborators, in order. *)
Inductive Event : Type :=
| EvHeadersGet (name : string)
| EvText
| EvVerifyKey
| EvJsonParse
| EvCall (key : string) (callee : PropertyValue).

Record Run (A : Type) : Type := mkRun {
  final : Store;
  trace : list Event;
  outcome : Completion A
}.

Arguments mkRun {A} final trace outcome.
Arguments final {A} r.
Arguments trace {A} r.
Arguments outcome {A} r.

(** A computation reads and may replace the store, logs events, and
    completes normally or throws. *)
Definition Eff (A : Type) : Type := Store -> Run A.

Definition ret {A : Type} (a : A) : Eff A :=
  fun s => mkRun s [] (Fulfilled a).

Definition throw {A : Type} (e : JsError) : Eff A :=
  fun s => mkRun s [] (Rejected e).

(** A run that comes after the events [before]. *)
Definition prepend {A : Type} (before : list Event) (r : Run A) : Run A :=
  mkRun (final r) (before ++ trace r) (outcome r).

Definition bind {A B : Type} (m : Eff A) (k : A -> Eff B) : Eff B :=
  fun s =>
    match m s with
    | mkRun s' before (Fulfilled a) => prepend before (k a s')
    | mkRun s' before (Rejected e) => mkRun s' before (Rejected e)
    end.

Definition lift {A : Type} (c : Completion A) : Eff A :=
  fun s => mkRun s [] c.

Definition tell (ev : Event) : Eff unit :=
  fun s => mkRun s [ev] (Fulfilled tt).

Definition read_store : Eff Store :=
  fun s => mkRun s [] (Fulfilled s).

Declare Scope eff_scope.
Delimit Scope eff_scope with eff.
Notation "x <- m ;; k" := (bind m (fun x => k))
  (at level 61, m at next level, right associativity) : eff_scope.
Notation "m ;; k" := (bind m (fun _ => k))
  (at level 61, right associativity) : eff_scope.

#[local] Open Scope eff_scope.

(** ** What every object literal inherits *)

Fixpoint assoc {A : Type} (l : list (string * A)) (key : string) : option A :=
  match l with
  | [] => None
  | (k, v) :: rest => if (k =? key)%string then Some v else assoc rest key
  end.

(** The properties of [Object.prototype].  [constructor] is [Object];
    [__proto__] is an accessor that answers the prototype of the receiver,
    which for an object literal is [Object.prototype] itself. *)
Definition Object_prototype : list (string * PropertyValue) :=
  [ ("constructor", PFunction Fn_Object);
    ("toString", PFunction Fn_Object_prototype_toString);
    ("toLocaleString", PFunction (Fn_Object_prototype_method "toLocaleString"));
    ("valueOf", PFunction (Fn_Object_prototype_method "valueOf"));
    ("hasOwnProperty", PFunction (Fn_Object_prototype_method "hasOwnProperty"));
    ("isPrototypeOf", PFunction Fn_Object_prototype_isPrototypeOf);
    ("propertyIsEnumerable", PFunction (Fn_Object_prototype_method "propertyIsEnumerable"));
    ("__defineGetter__", PFunction (Fn_Object_prototype_method "__defineGetter__"));
    ("__defineSetter__", PFunction (Fn_Object_prototype_method "__defineSetter__"));
    ("__lookupGetter__", PFunction (Fn_Object_prototype_method "__lookupGetter__"));
    ("__lookupSetter__", PFunction (Fn_Object_prototype_method "__lookupSetter__"));
    ("__proto__", PObjectPrototype) ].

(** The read [table[key]] on an object literal: an own property, else an
    inherited one, else [undefined] (here [None]). *)
Definition object_get (table : list (string * FunctionRef)) (key : string)
  : option PropertyValue :=
  match assoc table key with
  | Some f => Some (PFunction f)
  | None => assoc Object_prototype key
  end.

(** ** The worker *)

(** The object the top level of the module binds to [COMMAND_HANDLERS]. *)
Definition module_scope : Store :=
  mkStore
    [ ("ping", Fn_handlePingCommand);
      ("login", Fn_handleLoginCommand);
      ("start-shift", Fn_handleStartShiftCommand);
      ("end-shift", Fn_handleEndShiftCommand);
      ("shift-status", Fn_handleShiftStatusCommand) ].

(** [new Response(text, { status })]. *)
Definition textResponse (content : string) (code : Z) : Response :=
  mkResponse (Some content) code [].

(** [jsonResponse(data, status = 200)]. *)
Definition jsonResponse (data : JsValue) (code : Z) : Response :=
  mkResponse (JSON.stringify data) code [("Content-Type", "application/json")].

(** The envelope [featureComingSoonResponse] serialises. *)
Definition featureComingSoonData (commandName : string) : JsValue :=
  JObj
    [ ("type", JNum 4);
      ("data",
        JObj
          [ ("embeds",
              JArr
                [ JObj
                    [ ("title", JStr "Feature in Development");
                      ("description",
                        JStr ("The `" ++ commandName ++
                              "` command is available in the traditional bot deployment. Full Cloudflare Workers implementation coming soon!"));
                      ("color", JNum 0xbebefe);
                      ("footer",
                        JObj [ ("text", JStr "Use the traditional bot (bot.py) for full functionality") ]) ] ]);
            ("flags", JNum 64) ]) ].

Definition featureComingSoonResponse (commandName : string) : Response :=
  jsonResponse (featureComingSoonData commandName) 200.

Definition pingData : JsValue :=
  JObj
    [ ("type", JNum 4);
      ("data",
        JObj
          [ ("embeds",
              JArr
                [ JObj
                    [ ("title", JStr "🏓 Pong!");
                      ("description", JStr "Bot is running on Cloudflare Workers!");
                      ("color", JNum 0xbebefe) ] ]) ]) ].

Definition handlePingCommand (interaction : JsValue) (env : Env) : Eff Returned :=
  ret (RetResponse (jsonResponse pingData 200)).

(** An ephemeral plain message: [{ type: 4, data: { content, flags: 64 } }]. *)
Definition ephemeralMessage (content : string) : JsValue :=
  JObj
    [ ("type", JNum 4);
      ("data", JObj [ ("content", JStr content); ("flags", JNum 64) ]) ].

(** The callback [opt => opt.name === 'auth_key']. *)
Definition is_auth_key (opt : JsValue) : Completion bool :=
  match Js.get opt "name" with
  | Fulfilled n => Fulfilled (Js.strict_eq_str n "auth_key")
  | Rejected e => Rejected e
  end.

Definition handleLoginCommand (interaction : JsValue) (env : Env) : Eff Returned :=
  data <- lift (Js.get interaction "data") ;;
  options <- lift (Js.get data "options") ;;
  found <- lift (Js.opt_find options is_auth_key) ;;
  authKey <- lift (Js.opt_get found "value") ;;
  if negb (Js.truthy authKey) then
    ret (RetResponse (jsonResponse (ephemeralMessage "Auth key is required") 200))
  else
    ret (RetResponse (featureComingSoonResponse "login")).

Definition handleStartShiftCommand (interaction : JsValue) (env : Env) : Eff Returned :=
  ret (RetResponse (featureComingSoonResponse "start-shift")).

Definition handleEndShiftCommand (interaction : JsValue) (env : Env) : Eff Returned :=
  ret (RetResponse (featureComingSoonResponse "end-shift")).

Definition handleShiftStatusCommand (interaction : JsValue) (env : Env) : Eff Returned :=
  ret (RetResponse (featureComingSoonResponse "shift-status")).

(** [Object(value)] called as a function. *)
Definition Object_call (value : JsValue) : Returned :=
  match value with
  | JUndefined | JNull => RetValue (JObj [])
  | JArr _ | JObj _ => RetValue value
  | _ => RetBoxed value
  end.

(** The call [f(interaction, env)] of a function value, with [this]
    undefined as in module code.  [Object.prototype.toString] answers the
    tag of [undefined]; [isPrototypeOf] answers [false] for an argument
    that is no object; otherwise the methods of [Object.prototype] convert
    [this] to an object and throw. *)
Definition call (f : FunctionRef) (interaction : JsValue) (env : Env) : Eff Returned :=
  match f with
  | Fn_handlePingCommand => handlePingCommand interaction env
  | Fn_handleLoginCommand => handleLoginCommand interaction env
  | Fn_handleStartShiftCommand => handleStartShiftCommand interaction env
  | Fn_handleEndShiftCommand => handleEndShiftCommand interaction env
  | Fn_handleShiftStatusCommand => handleShiftStatusCommand interaction env
  | Fn_Object => ret (Object_call interaction)
  | Fn_Object_prototype_toString => ret (RetValue (JStr "[object Undefined]"))
  | Fn_Object_prototype_isPrototypeOf =>
      match interaction with
      | JArr _ | JObj _ => throw TypeError
      | _ => ret (RetValue (JBool false))
      end
  | Fn_Object_prototype_method _ => throw TypeError
  end.

(** The call [handler(interaction, env)] of whatever the table read
    found: calling a value that is not a function throws. *)
Definition invoke (key : string) (handler : PropertyValue)
    (interaction : JsValue) (env : Env) : Eff Returned :=
  tell (EvCall key handler) ;;
  match handler with
  | PFunction f => call f interaction env
  | PObjectPrototype => throw TypeError
  end.

(** [!v] on what [Headers.get] answers: [null] and the empty string. *)
Definition header_falsy (v : option string) : bool :=
  match v with
  | None => true
  | Some s => (s =? "")%string
  end.

Definition header_text (v : option string) : string :=
  match v with
  | None => ""
  | Some s => s
  end.

Section Worker.

(** [verifyKey(body, signature, timestamp, clientPublicKey)] of the
    [discord-interactions] package. *)
Variable verifyKey : string -> string -> string -> JsValue -> bool.

(** [JSON.parse]: [None] when it throws a [SyntaxError]. *)
Variable JSON_parse : string -> option JsValue.

Definition headers_get (request : Request) (name : string) : Eff (option string) :=
  tell (EvHeadersGet name) ;; ret (headers request name).

Definition request_text (request : Request) : Eff string :=
  tell EvText ;; ret (text request).

Definition verifyKey_call (b sig ts : string) (key : JsValue) : Eff bool :=
  tell EvVerifyKey ;; ret (verifyKey b sig ts key).

Definition JSON_parse_call (b : string) : Eff JsValue :=
  tell EvJsonParse ;;
  match JSON_parse b with
  | Some v => ret v
  | None => throw SyntaxError
  end.

(** The [fetch] handler of the default export. *)
Definition fetch (request : Request) (env : Env) : Eff Returned :=
  if negb (method request =? "POST")%string then
    ret (RetResponse (textResponse "Method not allowed" 405))
  else
    signature <- headers_get request "X-Signature-Ed25519" ;;
    timestamp <- headers_get request "X-Signature-Timestamp" ;;
    if header_falsy signature || header_falsy timestamp then
      ret (RetResponse (textResponse "Missing signature headers" 401))
    else
      body <- request_text request ;;
      isValidRequest <-
        verifyKey_call body (header_text signature) (header_text timestamp)
          (DISCORD_PUBLIC_KEY env) ;;
      if negb isValidRequest then
        ret (RetResponse (textResponse "Invalid signature" 401))
      else
        interaction <- JSON_parse_call body ;;
        type1 <- lift (Js.get interaction "type") ;;
        if Js.strict_eq_num type1 1 then
          ret (RetResponse (jsonResponse (JObj [("type", JNum 1)]) 200))
        else
          type2 <- lift (Js.get interaction "type") ;;
          if Js.strict_eq_num type2 2 then
            data <- lift (Js.get interaction "data") ;;
            commandName <- lift (Js.get data "name") ;;
            key <- lift (Js.to_string commandName) ;;
            scope <- read_store ;;
            match object_get (COMMAND_HANDLERS scope) key with
            | Some handler => invoke key handler interaction env
            | None =>
                shown <- lift (Js.to_string commandName) ;;
                ret (RetResponse
                       (jsonResponse (ephemeralMessage ("Unknown command: " ++ shown)) 200))
            end
          else
            ret (RetResponse
                   (jsonResponse (ephemeralMessage "Unsupported interaction type") 200)).

(** A request that passes every check before [JSON.parse]: the method is
    [POST], both signature headers are there and not empty, and
    [verifyKey] accepts the body under them. *)
Definition authenticated (request : Request) (env : Env) : Prop :=
  method request = "POST" /\
  header_falsy (headers request "X-Signature-Ed25519") = false /\
  header_falsy (headers request "X-Signature-Timestamp") = false /\
  verifyKey (text request)
    (header_text (headers request "X-Signature-Ed25519"))
    (header_text (headers request "X-Signature-Timestamp"))
    (DISCORD_PUBLIC_KEY env) = true.

End Worker.

(** ** Vocabulary of the statements *)

(** The statements of [fetch] that follow [JSON.parse], on their own. *)
Definition route (interaction : JsValue) (env : Env) : Eff Returned :=
  type1 <- lift (Js.get interaction "type") ;;
  if Js.strict_eq_num type1 1 then
    ret (RetResponse (jsonResponse (JObj [("type", JNum 1)]) 200))
  else
    type2 <- lift (Js.get interaction "type") ;;
    if Js.strict_eq_num type2 2 then
      data <- lift (Js.get interaction "data") ;;
      commandName <- lift (Js.get data "name") ;;
      key <- lift (Js.to_string commandName) ;;
      scope <- read_store ;;
      match object_get (COMMAND_HANDLERS scope) key with
      | Some handler => invoke key handler interaction env
      | None =>
          shown <- lift (Js.to_string commandName) ;;
          ret (RetResponse
                 (jsonResponse (ephemeralMessage ("Unknown command: " ++ shown)) 200))
      end
    else
      ret (RetResponse
             (jsonResponse (ephemeralMessage "Unsupported interaction type") 200)).

(** What an authenticated run logs up to and including [JSON.parse]. *)
Definition auth_trace : list Event :=
  [ EvHeadersGet "X-Signature-Ed25519";
    EvHeadersGet "X-Signature-Timestamp";
    EvText; EvVerifyKey; EvJsonParse ].

Definition is_parse (ev : Event) : bool :=
  match ev with
  | EvJsonParse => true
  | _ => false
  end.

Definition is_call (ev : Event) : bool :=
  match ev with
  | EvCall _ _ => true
  | _ => false
  end.

(** The parsed body is an interaction of type [n]. *)
Definition has_type (interaction : JsValue) (n : Z) : Prop :=
  Js.get interaction "type" = Fulfilled (JNum n).

(** The parsed body is a type 2 interaction whose [data.name] is the
    string [name]; [data] is its command data. *)
Definition names_command (interaction data : JsValue) (name : string) : Prop :=
  has_type interaction 2 /\
  Js.get interaction "data" = Fulfilled data /\
  Js.get data "name" = Fulfilled (JStr name).

Definition is_object (v : JsValue) : bool :=
  match v with
  | JObj _ => true
  | _ => false
  end.

(** The entry [opt] of an options list is named [name]. *)
Definition named (name : string) (opt : JsValue) : Prop :=
  Js.get opt "name" = Fulfilled (JStr name).

(** The interaction supplies no option named [arg]: it has no options list,
    or a list of entries none of which bears the name. *)
Definition argument_missing (arg : string) (interaction : JsValue) : Prop :=
  exists data,
    Js.get interaction "data" = Fulfilled data /\
    (Js.get data "options" = Fulfilled JUndefined \/
     exists opts,
       Js.get data "options" = Fulfilled (JArr opts) /\
       Forall (fun o => is_object o = true /\ ~ named arg o) opts).

(** *** Reading a response *)

Definition field (v : JsValue) (key : string) : JsValue :=
  match Js.get v key with
  | Fulfilled x => x
  | Rejected _ => JUndefined
  end.

(** The envelope a response carries on the wire. *)
Definition envelope (r : Returned) : option JsValue :=
  match r with
  | RetResponse resp =>
      match body resp with
      | Some b =>
          match JsonText.parse b with
          | JsonText.POk d => Some d
          | _ => None
          end
      | None => None
      end
  | _ => None
  end.

Definition is_json_ok (r : Returned) : bool :=
  match r with
  | RetResponse resp =>
      (status resp =? 200) &&
      match assoc (init_headers resp) "Content-Type" with
      | Some t => (t =? "application/json")%string
      | None => false
      end
  | _ => false
  end.

(** Type 4, a channel message with source. *)
Definition is_message (d : JsValue) : bool :=
  Js.strict_eq_num (field d "type") 4.

(** The flag of value 64. *)
Definition ephemeral (d : JsValue) : bool :=
  Js.strict_eq_num (field (field d "data") "flags") 64.

Definition content_of (d : JsValue) : option string :=
  match field (field d "data") "content" with
  | JStr s => Some s
  | _ => None
  end.

Definition embeds_of (d : JsValue) : list JsValue :=
  match field (field d "data") "embeds" with
  | JArr l => l
  | _ => []
  end.

Definition text_field (v : JsValue) (key : string) : string :=
  match field v key with
  | JStr s => s
  | _ => ""
  end.

(** [needle] occurs in [hay]. *)
Definition mentions (needle hay : string) : bool :=
  match String.index 0 needle hay with
  | Some _ => true
  | None => false
  end.

(** An ephemeral message of plain text and no embed. *)
Definition validation_error (r : Returned) : bool :=
  is_json_ok r &&
  match envelope r with
  | Some d =>
      is_message d && ephemeral d &&
      match content_of d, embeds_of d with
      | Some s, [] => negb (s =? "")%string
      | _, _ => false
      end
  | None => false
  end.

(** An ephemeral message of one embed whose description names the command
    and sends the user to the traditional bot deployment. *)
Definition placeholder_for (name : string) (r : Returned) : bool :=
  is_json_ok r &&
  match envelope r with
  | Some d =>
      is_message d && ephemeral d &&
      match embeds_of d with
      | [e] =>
          mentions name (text_field e "description") &&
          mentions "traditional bot deployment" (text_field e "description")
      | _ => false
      end
  | None => false
  end.

(** A handler of kind (a): some argument is required, and an interaction
    that lacks it is answered with a validation error. *)
Definition validates_argument (h : JsValue -> Env -> Eff Returned) : Prop :=
  exists arg, forall interaction env s,
    argument_missing arg interaction ->
    exists r,
      outcome (h interaction env s) = Fulfilled r /\ validation_error r = true.

(** A handler of kind (b): whatever the interaction, one and the same
    placeholder for the command. *)
Definition placeholder_handler (name : string)
    (h : JsValue -> Env -> Eff Returned) : Prop :=
  exists r,
    placeholder_for name r = true /\
    forall interaction env s, outcome (h interaction env s) = Fulfilled r.

(** A computation that leaves the store as it found it. *)
Definition preserves {A : Type} (m : Eff A) : Prop :=
  forall s, final (m s) = s.

(** The answer of the login handler to a missing key. *)
Definition auth_key_required : Returned :=
  RetResponse (jsonResponse (ephemeralMessage "Auth key is required") 200).

(** *** Concrete collaborators and requests *)

Module Sample.

(** A stand-in for the signature check: the signature of a message under
    key [k] is [k], a colon, and the message, which is the timestamp
    followed by the body. *)
Definition verifyKey (b sig ts : string) (key : JsValue) : bool :=
  match key with
  | JStr k => (sig =? k ++ ":" ++ ts ++ b)%string
  | _ => false
  end.

(** [JSON.parse] on the texts [JsonText.parse] decides: there it answers
    what [JSON.parse] answers.  On a text the reader leaves undecided (a
    fraction, an exponent, an integer beyond [2^53], a [\u] escape) it
    answers [None], which is not what [JSON.parse] does; it is applied to
    no such text below. *)
Definition JSON_parse (s : string) : option JsValue :=
  match JsonText.parse s with
  | JsonText.POk v => Some v
  | _ => None
  end.

Definition env : Env := mkEnv (JStr "key").

Definition request (verb : string) (signature timestamp : option string)
    (b : string) : Request :=
  mkRequest verb
    (fun name =>
       if (name =? "X-Signature-Ed25519")%string then signature
       else if (name =? "X-Signature-Timestamp")%string then timestamp
       else None)
    b.

(** A [POST] of the JSON text [b] (apostrophes for quotes), signed. *)
Definition signed (b : string) : Request :=
  let t := JsonText.text_of b in
  request "POST" (Some ("key:" ++ "1700000000" ++ t)) (Some "1700000000") t.

Definition run (r : Request) : Run Returned :=
  fetch verifyKey JSON_parse r env module_scope.

(** A [GET], a [POST] of [{}] with no signature header, and one with a
    signature made under another key. *)
Definition get_request : Request := request "GET" None None "".

Definition unsigned_post : Request :=
  request "POST" None (Some "1700000000") "{}".

Definition forged_post : Request :=
  request "POST" (Some "other:1700000000{}") (Some "1700000000") "{}".

(** Signed requests: a body cut short, the platform's ping, and commands. *)
Definition truncated : Request := signed "{'type':".

Definition ping : Request := signed "{'type':1,'id':'7','token':'t'}".

Definition login_no_options : Request :=
  signed "{'type':2,'data':{'name':'login','options':[]}}".

Definition login_abc123 : Request :=
  signed "{'type':2,'data':{'name':'login','options':[{'name':'auth_key','value':'abc123'}]}}".


Definition login_null_option : Request :=
  signed "{'type':2,'data':{'name':'login','options':[null]}}".

Definition constructor_command : Request :=
  signed "{'type':2,'data':{'name':'constructor'}}".

End Sample.

(** A response is the worker's JSON answer: status 200, the JSON content
    type, and a body. *)
Definition json_answer (resp : Response) : Prop :=
  status resp = 200 /\
  init_headers resp = [("Content-Type", "application/json")] /\
  body resp <> None.

(** *** Text that needs no [\u] escape *)

(** A character [JSON.stringify] writes as itself or with a short escape. *)
Definition plain_char (c : ascii) : bool :=
  let n := nat_of_ascii c in
  ((32 <=? n) || (n =? 8) || (n =? 9) || (n =? 10) || (n =? 12) || (n =? 13))%nat.

Fixpoint plain_text (s : string) : bool :=
  match s with
  | EmptyString => true
  | String c rest => plain_char c && plain_text rest
  end.

(** [undefined] or [null]. *)
Definition nullish (v : JsValue) : bool :=
  match v with
  | JUndefined | JNull => true
  | _ => false
  end.

(** Every number [ToString] meets in [v] is an integer a double holds
    exactly, which it writes in full.  An object is converted without a
    look at its properties. *)
Fixpoint writes_in_full (v : JsValue) : bool :=
  match v with
  | JNum z => Z.abs z <? 2 ^ 53
  | JArr elems => forallb writes_in_full elems
  | _ => true
  end.

(** The interaction supplies the option [arg]: its options are a list
    whose first entry named [arg] has a truthy value, the entries before
    it being neither [undefined] nor [null]. *)
Definition argument_supplied (arg : string) (interaction : JsValue) : Prop :=
  exists data before entry after,
    Js.get interaction "data" = Fulfilled data /\
    Js.get data "options" = Fulfilled (JArr (before ++ entry :: after)) /\
    Forall (fun o => nullish o = false /\ ~ named arg o) before /\
    named arg entry /\
    Js.truthy (field entry "value") = true.



(** *** The commands the deployment guide registers *)

(** The [commands] list of the registration script in
    [CLOUDFLARE_DEPLOYMENT.md]; a command written without [options] has
    none. *)
Module Catalog.

Record OptionSpec : Type := mkOption {
  option_name : string;
  option_description : string;
  option_type : Z;
  option_required : bool
}.

Record CommandSpec : Type := mkCommand {
  command_name : string;
  command_description : string;
  command_type : Z;
  command_options : list OptionSpec
}.

Definition commands : list CommandSpec :=
  [ mkCommand "ping" "Check if the bot is alive." 1 [];
    mkCommand "login" "Link your PocketBase auth key." 1
      [ mkOption "auth_key" "Your PocketBase auth key from the staff portal." 3 true ];
    mkCommand "start-shift" "Start your shift and log it in PocketBase." 1 [];
    mkCommand "end-shift" "End your active shift and record it in PocketBase." 1 [];
    mkCommand "shift-status" "Check your current shift status." 1 [] ].

(** The entry [opt] of an options list supplies the option [spec]: it
    bears its name and, for an option of type 3 (a string), a string
    value. *)
Definition supplies (spec : OptionSpec) (opt : JsValue) : Prop :=
  named (option_name spec) opt /\
  (option_type spec = 3 -> exists v, Js.get opt "value" = Fulfilled (JStr v)).

(** The interaction invokes the command [c] as registered: it names it,
    its options (a list, or none at all) are objects that each supply an
    option of [c], and every required option of [c] is supplied. *)
Definition conforms (c : CommandSpec) (interaction data : JsValue) : Prop :=
  names_command interaction data (command_name c) /\
  exists opts,
    (Js.get data "options" = Fulfilled (JArr opts) \/
     (Js.get data "options" = Fulfilled JUndefined /\ opts = [])) /\
    Forall
      (fun o =>
         is_object o = true /\
         exists spec, In spec (command_options c) /\ supplies spec o)
      opts /\
    (forall spec,
        In spec (command_options c) ->
        option_required spec = true ->
        exists o, In o opts /\ supplies spec o).

End Catalog.

(** Further requests: a command with no [data], one with no name, one
    whose name is an array, a name that holds quotes, and a body that is an
    array. *)
Module MoreSamples.

Definition command_without_data : Request := Sample.signed "{'type':2}".

Definition command_without_name : Request := Sample.signed "{'type':2,'data':{}}".

Definition command_named_by_array : Request :=
  Sample.signed "{'type':2,'data':{'name':['ping']}}".

Definition quoted_name : string := JsonText.text_of "say 'hi'".

Definition command_with_quotes : Request :=
  Sample.signed "{'type':2,'data':{'name':'say \'hi\''}}".

Definition array_body : Request := Sample.signed "[1,2]".

Definition string_type : Request := Sample.signed "{'type':'1'}".

Definition start_shift : Request :=
  Sample.signed "{'type':2,'data':{'name':'start-shift','options':[null]}}".

Definition ping_command : Request :=
  Sample.signed "{'type':2,'data':{'name':'ping'}}".

(** Logins whose options hold a non-empty [auth_key] that is not the
    first entry of that name, or that follows a [null]; and one whose key
    comes after an entry of another name. *)
Definition login_two_keys : Request :=
  Sample.signed
    "{'type':2,'data':{'name':'login','options':[{'name':'auth_key','value':''},{'name':'auth_key','value':'abc123'}]}}".

Definition login_null_then_key : Request :=
  Sample.signed
    "{'type':2,'data':{'name':'login','options':[null,{'name':'auth_key','value':'abc123'}]}}".

Definition login_key_second : Request :=
  Sample.signed
    "{'type':2,'data':{'name':'login','options':[{'name':'note','value':'x'},{'name':'auth_key','value':'abc123'}]}}".

Definition command_named_by_number : Request :=
  Sample.signed "{'type':2,'data':{'name':42}}".

End MoreSamples.

(** * Properties *)

(** ** The effect monad *)

Lemma prepend_nil {A : Type} (r : Run A) : prepend [] r = r.
Proof. destruct r; reflexivity. Qed.

Lemma prepend_app {A : Type} (t t' : list Event) (r : Run A) :
  prepend t (prepend t' r) = prepend (t ++ t') r.
Proof. unfold prepend; cbn [final trace outcome]. now rewrite app_assoc. Qed.

Lemma bind_ret {A B : Type} (a : A) (k : A -> Eff B) (s : Store) :
  bind (ret a) k s = k a s.
Proof. unfold bind, ret. apply prepend_nil. Qed.

Lemma bind_lift_fulfilled {A B : Type} (a : A) (k : A -> Eff B) (s : Store) :
  bind (lift (Fulfilled a)) k s = k a s.
Proof. unfold bind, lift. apply prepend_nil. Qed.

Lemma bind_lift_rejected {A B : Type} (e : JsError) (k : A -> Eff B) (s : Store) :
  bind (lift (Rejected e)) k s = mkRun s [] (Rejected e).
Proof. reflexivity. Qed.

Lemma bind_tell {B : Type} (ev : Event) (k : unit -> Eff B) (s : Store) :
  bind (tell ev) k s = prepend [ev] (k tt s).
Proof. reflexivity. Qed.

Lemma bind_read_store {B : Type} (k : Store -> Eff B) (s : Store) :
  bind read_store k s = k s s.
Proof. unfold bind, read_store. apply prepend_nil. Qed.

Lemma bind_assoc {A B C : Type} (m : Eff A) (f : A -> Eff B) (k : B -> Eff C)
    (s : Store) :
  bind (bind m f) k s = bind m (fun a => bind (f a) k) s.
Proof.
  unfold bind. destruct (m s) as [s1 t1 [a | e]]; [ | reflexivity ].
  destruct (f a s1) as [s2 t2 [b | e]]; unfold prepend at 1; cbn [final trace outcome].
  - now rewrite prepend_app.
  - reflexivity.
Qed.

Lemma preserves_ret {A : Type} (a : A) : preserves (ret a).
Proof. intro s; reflexivity. Qed.

Lemma preserves_throw {A : Type} (e : JsError) : preserves (@throw A e).
Proof. intro s; reflexivity. Qed.

Lemma preserves_lift {A : Type} (c : Completion A) : preserves (lift c).
Proof. intro s; reflexivity. Qed.

Lemma preserves_tell (ev : Event) : preserves (tell ev).
Proof. intro s; reflexivity. Qed.

Lemma preserves_read_store : preserves read_store.
Proof. intro s; reflexivity. Qed.

Lemma preserves_bind {A B : Type} (m : Eff A) (k : A -> Eff B) :
  preserves m -> (forall a, preserves (k a)) -> preserves (bind m k).
Proof.
  intros Hm Hk s. unfold bind. specialize (Hm s).
  destruct (m s) as [s1 t1 [a | e]]; cbn [final] in Hm; subst s1.
  - apply Hk.
  - reflexivity.
Qed.

Create HintDb preserve.

#[local] Hint Resolve preserves_ret preserves_throw preserves_lift
  preserves_tell preserves_read_store : preserve.

(** Walks a computation built from the monad's operations, conditionals
    and matches. *)
Ltac preserve :=
  repeat first
    [ solve [ auto with preserve ]
    | apply preserves_bind; [ | intro ]
    | match goal with
      | |- preserves (if ?b then _ else _) => destruct b
      | |- preserves (match ?x with _ => _ end) => destruct x
      end ].

(** ** The handlers and the table *)

Lemma preserves_call (f : FunctionRef) (interaction : JsValue) (env : Env) :
  preserves (call f interaction env).
Proof.
  destruct f; cbn [call];
    unfold handlePingCommand, handleLoginCommand, handleStartShiftCommand,
      handleEndShiftCommand, handleShiftStatusCommand;
    preserve.
Qed.

Lemma preserves_invoke (key : string) (h : PropertyValue)
    (interaction : JsValue) (env : Env) :
  preserves (invoke key h interaction env).
Proof.
  unfold invoke. apply preserves_bind; [ auto with preserve | intros _ ].
  destruct h; [ apply preserves_call | auto with preserve ].
Qed.

#[local] Hint Resolve preserves_call preserves_invoke : preserve.

Lemma invoke_function (key : string) (f : FunctionRef)
    (interaction : JsValue) (env : Env) (s : Store) :
  invoke key (PFunction f) interaction env s =
    prepend [EvCall key (PFunction f)] (call f interaction env s).
Proof. reflexivity. Qed.

(** Resolution among the own keys is exact: the five names, as written. *)
Lemma registered_names (name : string) (f : FunctionRef) :
  assoc (COMMAND_HANDLERS module_scope) name = Some f <->
  In (name, f) (COMMAND_HANDLERS module_scope).
Proof.
  cbn [module_scope COMMAND_HANDLERS assoc]. split.
  - intro H.
    repeat match type of H with
           | (if (?k =? name)%string then _ else _) = _ =>
               destruct (String.eqb_spec k name) as [<- | _];
               [ injection H as <-; cbn [In]; tauto | ]
           end.
    discriminate.
  - intro H. cbn [In] in H.
    repeat (destruct H as [H | H]; [ injection H as <- <-; reflexivity | ]).
    contradiction.
Qed.

(** Letter case matters, and no inherited property answers to ["Ping"]. *)
Lemma capitalised_name_is_unknown :
  object_get (COMMAND_HANDLERS module_scope) "Ping" = None.
Proof. reflexivity. Qed.

Lemma assoc_none {A : Type} (l : list (string * A)) (key : string) :
  ~ In key (map fst l) -> assoc l key = None.
Proof.
  induction l as [ | [k v] l IH ]; cbn [assoc map fst In]; intro H.
  - reflexivity.
  - destruct (String.eqb_spec k key) as [E | _].
    + exfalso. apply H. left. exact E.
    + apply IH. intro Hin. apply H. right. exact Hin.
Qed.

(** A name that is neither one of the five nor a property of
    [Object.prototype] finds nothing. *)
Lemma object_get_none (name : string) :
  ~ In name (map fst (COMMAND_HANDLERS module_scope)) ->
  ~ In name (map fst Object_prototype) ->
  object_get (COMMAND_HANDLERS module_scope) name = None.
Proof.
  intros Hown Hproto. unfold object_get.
  rewrite (assoc_none _ name Hown). apply assoc_none, Hproto.
Qed.

(** A name the table only inherits finds a value all the same. *)
Lemma inherited_names_resolve (name : string) :
  In name (map fst Object_prototype) ->
  assoc (COMMAND_HANDLERS module_scope) name = None /\
  exists found, object_get (COMMAND_HANDLERS module_scope) name = Some found.
Proof.
  cbn [Object_prototype map fst In]. intro H.
  repeat (destruct H as [<- | H]; [ split; [ reflexivity | eexists; reflexivity ] | ]).
  contradiction.
Qed.

(** The accessor [__proto__] finds an object, and calling it throws. *)
Lemma proto_is_not_callable (interaction : JsValue) (env : Env) (s : Store) :
  object_get (COMMAND_HANDLERS module_scope) "__proto__" = Some PObjectPrototype /\
  outcome (invoke "__proto__" PObjectPrototype interaction env s) = Rejected TypeError.
Proof. split; reflexivity. Qed.

(** ** The login handler *)

Lemma is_auth_key_true (opt : JsValue) :
  is_auth_key opt = Fulfilled true <-> named "auth_key" opt.
Proof.
  unfold is_auth_key, named.
  destruct (Js.get opt "name") as [n | e]; split; intro H; try discriminate.
  - destruct n; cbn [Js.strict_eq_str] in H; try discriminate.
    injection H as H. apply String.eqb_eq in H. now subst.
  - injection H as ->. reflexivity.
Qed.

Lemma is_auth_key_false (opt : JsValue) :
  is_object opt = true -> ~ named "auth_key" opt ->
  is_auth_key opt = Fulfilled false.
Proof.
  intros Ho Hn. destruct opt; try discriminate.
  pose proof (is_auth_key_true (JObj props)) as Ht.
  unfold is_auth_key in *. cbn [Js.get] in *.
  destruct (Js.own props "name") as [n | ].
  - destruct (Js.strict_eq_str n "auth_key"); [ | reflexivity ].
    exfalso. apply Hn, Ht. reflexivity.
  - reflexivity.
Qed.


Lemma find_none (opts : list JsValue) :
  Forall (fun o => is_object o = true /\ ~ named "auth_key" o) opts ->
  Js.array_find is_auth_key opts = Fulfilled JUndefined.
Proof.
  induction 1 as [ | o opts [Ho Hn] _ IH ]; cbn [Js.array_find].
  - reflexivity.
  - rewrite (is_auth_key_false o Ho Hn). exact IH.
Qed.

(** In a list of objects where one entry alone bears the name, [find]
    answers that entry. *)
Lemma find_unique (opts : list JsValue) (entry : JsValue) :
  Forall (fun o => is_object o = true) opts ->
  In entry opts ->
  named "auth_key" entry ->
  (forall o, In o opts -> named "auth_key" o -> o = entry) ->
  Js.array_find is_auth_key opts = Fulfilled entry.
Proof.
  intros Hobj. induction Hobj as [ | o opts Ho _ IH ]; intros Hin He Huniq.
  - destruct Hin.
  - cbn [Js.array_find]. destruct (is_auth_key o) as [[ | ] | err] eqn:E.
    + apply is_auth_key_true in E.
      rewrite (Huniq o (or_introl eq_refl) E). reflexivity.
    + apply IH.
      * destruct Hin as [<- | Hin]; [ | exact Hin ].
        apply is_auth_key_true in He. congruence.
      * exact He.
      * intros o' Ho'. apply Huniq. right. exact Ho'.
    + destruct o; try discriminate.
      unfold is_auth_key in E. cbn [Js.get] in E.
      destruct (Js.own props "name"); discriminate.
Qed.

Lemma login_run (interaction data options found value : JsValue)
    (env : Env) (s : Store) :
  Js.get interaction "data" = Fulfilled data ->
  Js.get data "options" = Fulfilled options ->
  Js.opt_find options is_auth_key = Fulfilled found ->
  Js.opt_get found "value" = Fulfilled value ->
  handleLoginCommand interaction env s =
    mkRun s []
      (Fulfilled
         (if Js.truthy value
          then RetResponse (featureComingSoonResponse "login")
          else auth_key_required)).
Proof.
  intros Hd Ho Hf Hv. unfold handleLoginCommand.
  rewrite Hd, bind_lift_fulfilled, Ho, bind_lift_fulfilled,
    Hf, bind_lift_fulfilled, Hv, bind_lift_fulfilled.
  destruct (Js.truthy value); reflexivity.
Qed.

(** Whenever the login handler completes, it is with one of its two
    responses. *)
Lemma login_outcome (interaction : JsValue) (env : Env) (s : Store) (r : Returned) :
  outcome (handleLoginCommand interaction env s) = Fulfilled r ->
  r = auth_key_required \/ r = RetResponse (featureComingSoonResponse "login").
Proof.
  unfold handleLoginCommand.
  destruct (Js.get interaction "data") as [data | ];
    [ rewrite bind_lift_fulfilled | discriminate ].
  destruct (Js.get data "options") as [options | ];
    [ rewrite bind_lift_fulfilled | discriminate ].
  destruct (Js.opt_find options is_auth_key) as [found | ];
    [ rewrite bind_lift_fulfilled | discriminate ].
  destruct (Js.opt_get found "value") as [value | ];
    [ rewrite bind_lift_fulfilled | discriminate ].
  destruct (Js.truthy value); cbn [negb ret outcome]; intro H;
    injection H as <-; auto.
Qed.

Lemma get_fault (v : JsValue) (key : string) (e : JsError) :
  Js.get v key = Rejected e -> e = TypeError.
Proof.
  destruct v; cbn [Js.get]; try discriminate;
    try (intro H; injection H as <-; reflexivity).
  destruct (Js.own props key); discriminate.
Qed.

Lemma find_fault (l : list JsValue) (e : JsError) :
  Js.array_find is_auth_key l = Rejected e -> e = TypeError.
Proof.
  induction l as [ | o l IH ]; cbn [Js.array_find]; [ discriminate | ].
  unfold is_auth_key at 1.
  destruct (Js.get o "name") as [n | err] eqn:E.
  - destruct (Js.strict_eq_str n "auth_key"); [ discriminate | exact IH ].
  - intro H. injection H as <-. exact (get_fault o "name" err E).
Qed.

(** Of the five handlers only the login handler can fault, and then with
    a [TypeError]. *)
Lemma only_login_faults (name : string) (f : FunctionRef)
    (interaction : JsValue) (env : Env) (s : Store) (e : JsError) :
  In (name, f) (COMMAND_HANDLERS module_scope) ->
  outcome (call f interaction env s) = Rejected e ->
  f = Fn_handleLoginCommand /\ e = TypeError.
Proof.
  intros Hin. cbn [module_scope COMMAND_HANDLERS In] in Hin.
  destruct Hin as [H | [H | [H | [H | [H | []]]]]]; injection H as <- <-;
    cbn [call]; try discriminate.
  unfold handleLoginCommand. intro He. split; [ reflexivity | ].
  destruct (Js.get interaction "data") as [data | e0] eqn:E0.
  2:{ rewrite bind_lift_rejected in He. injection He as <-.
      exact (get_fault _ _ _ E0). }
  rewrite bind_lift_fulfilled in He.
  destruct (Js.get data "options") as [options | e1] eqn:E1.
  2:{ rewrite bind_lift_rejected in He. injection He as <-.
      exact (get_fault _ _ _ E1). }
  rewrite bind_lift_fulfilled in He.
  destruct (Js.opt_find options is_auth_key) as [found | e2] eqn:E2.
  2:{ rewrite bind_lift_rejected in He. injection He as <-.
      destruct options; cbn [Js.opt_find] in E2; try discriminate;
        try (injection E2 as <-; reflexivity).
      exact (find_fault _ _ E2). }
  rewrite bind_lift_fulfilled in He.
  destruct (Js.opt_get found "value") as [value | e3] eqn:E3.
  2:{ rewrite bind_lift_rejected in He. injection He as <-.
      destruct found; cbn [Js.opt_get] in E3; try discriminate;
        exact (get_fault _ _ _ E3). }
  rewrite bind_lift_fulfilled in He.
  destruct (Js.truthy value); discriminate He.
Qed.

(** An interaction that lacks the option is answered "Auth key is
    required". *)
Lemma login_missing (interaction : JsValue) (env : Env) (s : Store) :
  argument_missing "auth_key" interaction ->
  handleLoginCommand interaction env s = mkRun s [] (Fulfilled auth_key_required).
Proof.
  intros (data & Hd & [Ho | (opts & Ho & Hall)]).
  - apply (login_run interaction data JUndefined JUndefined JUndefined env s Hd Ho);
      reflexivity.
  - apply (login_run interaction data (JArr opts) JUndefined JUndefined env s Hd Ho);
      [ apply find_none, Hall | reflexivity ].
Qed.

(** ** Routing a parsed body *)

Lemma preserves_route (interaction : JsValue) (env : Env) :
  preserves (route interaction env).
Proof. unfold route. preserve. Qed.

Lemma route_type_1 (interaction : JsValue) (env : Env) (s : Store) :
  has_type interaction 1 ->
  route interaction env s =
    mkRun s [] (Fulfilled (RetResponse (jsonResponse (JObj [("type", JNum 1)]) 200))).
Proof.
  unfold has_type, route. intros ->. rewrite bind_lift_fulfilled. reflexivity.
Qed.

Lemma route_type_2 (interaction data : JsValue) (name : string)
    (env : Env) (s : Store) :
  names_command interaction data name ->
  route interaction env s =
    match object_get (COMMAND_HANDLERS s) name with
    | Some handler => invoke name handler interaction env s
    | None =>
        mkRun s []
          (Fulfilled
             (RetResponse
                (jsonResponse (ephemeralMessage ("Unknown command: " ++ name)) 200)))
    end.
Proof.
  intros (Ht & Hd & Hn). unfold has_type in Ht. unfold route.
  rewrite Ht, bind_lift_fulfilled. cbn [Js.strict_eq_num Z.eqb Pos.eqb].
  rewrite bind_lift_fulfilled. cbn [Js.strict_eq_num Z.eqb Pos.eqb].
  rewrite Hd, bind_lift_fulfilled, Hn, bind_lift_fulfilled.
  cbn [Js.to_string]. rewrite bind_lift_fulfilled, bind_read_store.
  destruct (object_get (COMMAND_HANDLERS s) name) as [handler | ].
  - reflexivity.
  - rewrite bind_lift_fulfilled. reflexivity.
Qed.

(** Any other type, or none, is answered "Unsupported interaction type". *)
Lemma route_other_type (interaction type : JsValue) (env : Env) (s : Store) :
  Js.get interaction "type" = Fulfilled type ->
  Js.strict_eq_num type 1 = false ->
  Js.strict_eq_num type 2 = false ->
  route interaction env s =
    mkRun s []
      (Fulfilled
         (RetResponse
            (jsonResponse (ephemeralMessage "Unsupported interaction type") 200))).
Proof.
  intros Ht H1 H2. unfold route.
  rewrite Ht, bind_lift_fulfilled, H1, bind_lift_fulfilled, H2. reflexivity.
Qed.

Section Properties.

Variable verifyKey : string -> string -> string -> JsValue -> bool.
Variable JSON_parse : string -> option JsValue.

#[local] Abbreviation fetch' := (fetch verifyKey JSON_parse).
#[local] Abbreviation authenticated' := (authenticated verifyKey).

(** ** The collaborator calls *)

Lemma bind_headers_get {B : Type} (request : Request) (name : string)
    (k : option string -> Eff B) (s : Store) :
  bind (headers_get request name) k s =
    prepend [EvHeadersGet name] (k (headers request name) s).
Proof.
  unfold headers_get. rewrite bind_assoc, bind_tell. now rewrite bind_ret.
Qed.

Lemma bind_request_text {B : Type} (request : Request)
    (k : string -> Eff B) (s : Store) :
  bind (request_text request) k s = prepend [EvText] (k (text request) s).
Proof.
  unfold request_text. rewrite bind_assoc, bind_tell. now rewrite bind_ret.
Qed.

Lemma bind_verifyKey_call {B : Type} (b sig ts : string) (key : JsValue)
    (k : bool -> Eff B) (s : Store) :
  bind (verifyKey_call verifyKey b sig ts key) k s =
    prepend [EvVerifyKey] (k (verifyKey b sig ts key) s).
Proof.
  unfold verifyKey_call. rewrite bind_assoc, bind_tell. now rewrite bind_ret.
Qed.

Lemma bind_JSON_parse_call {B : Type} (b : string) (k : JsValue -> Eff B) (s : Store) :
  bind (JSON_parse_call JSON_parse b) k s =
    match JSON_parse b with
    | Some v => prepend [EvJsonParse] (k v s)
    | None => mkRun s [EvJsonParse] (Rejected SyntaxError)
    end.
Proof.
  unfold JSON_parse_call. rewrite bind_assoc, bind_tell.
  destruct (JSON_parse b) as [v | ]; [ now rewrite bind_ret | reflexivity ].
Qed.

(** An authenticated run is the five collaborator calls followed by the
    routing of the parsed body, or by the [SyntaxError] of [JSON.parse]. *)
Lemma fetch_authenticated (request : Request) (env : Env) (s : Store) :
  authenticated' request env ->
  fetch' request env s =
    match JSON_parse (text request) with
    | Some interaction => prepend auth_trace (route interaction env s)
    | None => mkRun s auth_trace (Rejected SyntaxError)
    end.
Proof.
  intros (Hm & Hs & Ht & Hv).
  unfold fetch. rewrite Hm. cbn [String.eqb Ascii.eqb Bool.eqb negb].
  rewrite bind_headers_get, bind_headers_get, Hs, Ht. cbn [orb].
  rewrite bind_request_text, bind_verifyKey_call, Hv. cbn [negb].
  rewrite bind_JSON_parse_call.
  destruct (JSON_parse (text request)) as [interaction | ].
  - rewrite !prepend_app. reflexivity.
  - reflexivity.
Qed.

(** ** Rejection before parsing *)

Lemma fetch_wrong_method (request : Request) (env : Env) (s : Store) :
  method request <> "POST" ->
  fetch' request env s =
    mkRun s [] (Fulfilled (RetResponse (textResponse "Method not allowed" 405))).
Proof.
  intro Hm. unfold fetch.
  destruct (String.eqb_spec (method request) "POST") as [E | _];
    [ contradiction | reflexivity ].
Qed.

Lemma fetch_missing_headers (request : Request) (env : Env) (s : Store) :
  method request = "POST" ->
  header_falsy (headers request "X-Signature-Ed25519") = true \/
  header_falsy (headers request "X-Signature-Timestamp") = true ->
  fetch' request env s =
    mkRun s
      [ EvHeadersGet "X-Signature-Ed25519"; EvHeadersGet "X-Signature-Timestamp" ]
      (Fulfilled (RetResponse (textResponse "Missing signature headers" 401))).
Proof.
  intros Hm Hmiss. unfold fetch. rewrite Hm.
  cbn [String.eqb Ascii.eqb Bool.eqb negb].
  rewrite bind_headers_get, bind_headers_get.
  assert (header_falsy (headers request "X-Signature-Ed25519")
          || header_falsy (headers request "X-Signature-Timestamp") = true) as ->
    by (apply orb_true_iff; exact Hmiss).
  reflexivity.
Qed.

Lemma fetch_invalid_signature (request : Request) (env : Env) (s : Store) :
  method request = "POST" ->
  header_falsy (headers request "X-Signature-Ed25519") = false ->
  header_falsy (headers request "X-Signature-Timestamp") = false ->
  verifyKey (text request)
    (header_text (headers request "X-Signature-Ed25519"))
    (header_text (headers request "X-Signature-Timestamp"))
    (DISCORD_PUBLIC_KEY env) = false ->
  fetch' request env s =
    mkRun s
      [ EvHeadersGet "X-Signature-Ed25519"; EvHeadersGet "X-Signature-Timestamp";
        EvText; EvVerifyKey ]
      (Fulfilled (RetResponse (textResponse "Invalid signature" 401))).
Proof.
  intros Hm Hs Ht Hv. unfold fetch. rewrite Hm.
  cbn [String.eqb Ascii.eqb Bool.eqb negb].
  rewrite bind_headers_get, bind_headers_get, Hs, Ht. cbn [orb].
  rewrite bind_request_text, bind_verifyKey_call, Hv. reflexivity.
Qed.

(** C4: a request whose method is not [POST] is answered 405 before any
    header or body is read (the run logs nothing); a [POST] whose
    signature header or timestamp header is missing, or whose signature
    [verifyKey] refuses, is answered 401, and the run neither parses the
    body nor calls anything found in the table. *)
Theorem unauthenticated_requests_are_rejected :
  (forall request env s,
      method request <> "POST" ->
      exists resp,
        fetch' request env s = mkRun s [] (Fulfilled (RetResponse resp)) /\
        status resp = 405) /\
  (forall request env s,
      method request = "POST" ->
      header_falsy (headers request "X-Signature-Ed25519") = true \/
      header_falsy (headers request "X-Signature-Timestamp") = true \/
      verifyKey (text request)
        (header_text (headers request "X-Signature-Ed25519"))
        (header_text (headers request "X-Signature-Timestamp"))
        (DISCORD_PUBLIC_KEY env) = false ->
      exists resp,
        outcome (fetch' request env s) = Fulfilled (RetResponse resp) /\
        status resp = 401 /\
        final (fetch' request env s) = s /\
        existsb is_parse (trace (fetch' request env s)) = false /\
        existsb is_call (trace (fetch' request env s)) = false).
Proof.
  split.
  - intros request env s Hm. eexists. split.
    + apply fetch_wrong_method, Hm.
    + reflexivity.
  - intros request env s Hm H.
    destruct (header_falsy (headers request "X-Signature-Ed25519")) eqn:Hs.
    { rewrite (fetch_missing_headers request env s Hm) by (left; exact Hs).
      eexists; repeat split. }
    destruct (header_falsy (headers request "X-Signature-Timestamp")) eqn:Ht.
    { rewrite (fetch_missing_headers request env s Hm) by (right; exact Ht).
      eexists; repeat split. }
    destruct H as [H | [H | Hv]]; try discriminate.
    rewrite (fetch_invalid_signature request env s Hm Hs Ht Hv).
    eexists; repeat split.
Qed.

(** ** Malformed bodies *)

(** C1, as the code has it: when the body of an authenticated request does
    not parse, [fetch] answers nothing: the [SyntaxError] of [JSON.parse]
    rejects its promise, after the five collaborator calls and with nothing
    called from the table. *)
Theorem malformed_body_rejects (request : Request) (env : Env) (s : Store) :
  authenticated' request env ->
  JSON_parse (text request) = None ->
  fetch' request env s = mkRun s auth_trace (Rejected SyntaxError).
Proof.
  intros Ha Hp. rewrite (fetch_authenticated request env s Ha), Hp. reflexivity.
Qed.

(** ** The ping interaction *)

(** C5: an authenticated request whose parsed body has [type] 1 is
    answered 200 with the body [{"type":1}], whatever else the body holds;
    nothing from the table is called. *)
Theorem type_1_is_answered_with_pong
    (request : Request) (env : Env) (s : Store) (interaction : JsValue) :
  authenticated' request env ->
  JSON_parse (text request) = Some interaction ->
  has_type interaction 1 ->
  fetch' request env s =
    mkRun s auth_trace
      (Fulfilled
         (RetResponse
            (mkResponse (Some (JsonText.text_of "{'type':1}")) 200
               [("Content-Type", "application/json")]))).
Proof.
  intros Ha Hp Ht.
  rewrite (fetch_authenticated request env s Ha), Hp.
  rewrite (route_type_1 interaction env s Ht). reflexivity.
Qed.

(** An authenticated request whose type is neither 1 nor 2 is answered
    with the ephemeral "Unsupported interaction type" message. *)
Lemma fetch_other_type (request : Request) (env : Env) (s : Store)
    (interaction type : JsValue) :
  authenticated' request env ->
  JSON_parse (text request) = Some interaction ->
  Js.get interaction "type" = Fulfilled type ->
  Js.strict_eq_num type 1 = false ->
  Js.strict_eq_num type 2 = false ->
  fetch' request env s =
    mkRun s auth_trace
      (Fulfilled
         (RetResponse
            (jsonResponse (ephemeralMessage "Unsupported interaction type") 200))).
Proof.
  intros Ha Hp Ht H1 H2.
  rewrite (fetch_authenticated request env s Ha), Hp.
  rewrite (route_other_type interaction type env s Ht H1 H2). reflexivity.
Qed.

(** ** Command interactions *)

(** A command whose name is an own key of the table: the run of [fetch] is
    the run of the handler found there, after the authentication calls and
    the call event. *)
Lemma fetch_registered (request : Request) (env : Env)
    (interaction data : JsValue) (name : string) (f : FunctionRef) :
  authenticated' request env ->
  JSON_parse (text request) = Some interaction ->
  names_command interaction data name ->
  assoc (COMMAND_HANDLERS module_scope) name = Some f ->
  fetch' request env module_scope =
    prepend (auth_trace ++ [EvCall name (PFunction f)])
      (call f interaction env module_scope).
Proof.
  intros Ha Hp Hc Hf.
  rewrite (fetch_authenticated request env module_scope Ha), Hp.
  rewrite (route_type_2 interaction data name env module_scope Hc).
  unfold object_get. rewrite Hf, invoke_function. apply prepend_app.
Qed.

(** A command whose name is neither an own key of the table nor a
    property of [Object.prototype]: an ephemeral message quoting the name,
    and no call. *)
Lemma fetch_unknown_command (request : Request) (env : Env)
    (interaction data : JsValue) (name : string) :
  authenticated' request env ->
  JSON_parse (text request) = Some interaction ->
  names_command interaction data name ->
  object_get (COMMAND_HANDLERS module_scope) name = None ->
  fetch' request env module_scope =
    mkRun module_scope auth_trace
      (Fulfilled
         (RetResponse
            (jsonResponse (ephemeralMessage ("Unknown command: " ++ name)) 200))).
Proof.
  intros Ha Hp Hc Hn.
  rewrite (fetch_authenticated request env module_scope Ha), Hp.
  rewrite (route_type_2 interaction data name env module_scope Hc), Hn.
  reflexivity.
Qed.

(** A command whose name the table only inherits: whatever the read finds
    is called, and the promise of [fetch] does not resolve to a response. *)
Lemma fetch_inherited_name (request : Request) (env : Env)
    (interaction data : JsValue) (name : string) :
  authenticated' request env ->
  JSON_parse (text request) = Some interaction ->
  names_command interaction data name ->
  In name (map fst Object_prototype) ->
  (exists found,
      In (EvCall name found) (trace (fetch' request env module_scope))) /\
  (forall resp,
      outcome (fetch' request env module_scope) <> Fulfilled (RetResponse resp)).
Proof.
  intros Ha Hp Hc Hin.
  rewrite (fetch_authenticated request env module_scope Ha), Hp.
  rewrite (route_type_2 interaction data name env module_scope Hc).
  destruct Hc as (Ht & _). unfold has_type in Ht.
  assert (Hobj : exists props, interaction = JObj props).
  { destruct interaction; try discriminate Ht. eexists; reflexivity. }
  destruct Hobj as (props & ->).
  cbn [Object_prototype map fst In] in Hin.
  repeat (destruct Hin as [<- | Hin];
          [ split;
            [ eexists; apply in_or_app; right; left; reflexivity
            | intros resp; discriminate ]
          | ]).
  contradiction.
Qed.

(** C2, as the code has it: when the handler found under a registered
    name faults, nothing catches the fault: the promise of [fetch] is
    rejected with the handler's own error and no response is made. *)
Theorem handler_fault_propagates (request : Request) (env : Env)
    (interaction data : JsValue) (name : string) (f : FunctionRef) (e : JsError) :
  authenticated' request env ->
  JSON_parse (text request) = Some interaction ->
  names_command interaction data name ->
  assoc (COMMAND_HANDLERS module_scope) name = Some f ->
  outcome (call f interaction env module_scope) = Rejected e ->
  outcome (fetch' request env module_scope) = Rejected e /\
  In (EvCall name (PFunction f)) (trace (fetch' request env module_scope)).
Proof.
  intros Ha Hp Hc Hf He.
  rewrite (fetch_registered request env interaction data name f Ha Hp Hc Hf).
  unfold prepend. cbn [outcome trace]. split; [ exact He | ].
  apply in_or_app. left. apply in_or_app. right. left. reflexivity.
Qed.

(** ** The login command *)

Lemma fetch_login (request : Request) (env : Env)
    (interaction data options found value : JsValue) :
  authenticated' request env ->
  JSON_parse (text request) = Some interaction ->
  names_command interaction data "login" ->
  Js.get data "options" = Fulfilled options ->
  Js.opt_find options is_auth_key = Fulfilled found ->
  Js.opt_get found "value" = Fulfilled value ->
  fetch' request env module_scope =
    mkRun module_scope
      (auth_trace ++ [EvCall "login" (PFunction Fn_handleLoginCommand)])
      (Fulfilled
         (if Js.truthy value
          then RetResponse (featureComingSoonResponse "login")
          else auth_key_required)).
Proof.
  intros Ha Hp Hc Ho Hf Hv.
  rewrite (fetch_registered request env interaction data "login"
             Fn_handleLoginCommand Ha Hp Hc eq_refl).
  cbn [call]. destruct Hc as (_ & Hd & _).
  rewrite (login_run interaction data options found value env module_scope
             Hd Ho Hf Hv).
  reflexivity.
Qed.

(** C6: an authenticated type 2 request that names [login] with an empty
    options list is answered 200 with the body
    [{"type":4,"data":{"content":"Auth key is required","flags":64}}]. *)
Theorem login_without_options_requires_key (request : Request) (env : Env)
    (interaction data : JsValue) :
  authenticated' request env ->
  JSON_parse (text request) = Some interaction ->
  names_command interaction data "login" ->
  Js.get data "options" = Fulfilled (JArr []) ->
  outcome (fetch' request env module_scope) =
    Fulfilled
      (RetResponse
         (mkResponse
            (Some (JsonText.text_of
                     "{'type':4,'data':{'content':'Auth key is required','flags':64}}"))
            200
            [("Content-Type", "application/json")])).
Proof.
  intros Ha Hp Hc Ho.
  rewrite (fetch_login request env interaction data (JArr []) JUndefined JUndefined
             Ha Hp Hc Ho eq_refl eq_refl).
  vm_compute. reflexivity.
Qed.

(** ** Replay *)

Lemma preserves_fetch (request : Request) (env : Env) :
  preserves (fetch' request env).
Proof.
  unfold fetch, headers_get, request_text, verifyKey_call, JSON_parse_call.
  preserve.
Qed.

(** C9: [fetch] keeps no state of its own.  From any store, with the
    collaborators fixed, a run leaves the store as it found it, and the
    same request run again, on the store the first run left, gives the
    same outcome after the same calls. *)
Theorem replay_is_identical (request : Request) (env : Env) (s : Store) :
  let first := fetch' request env s in
  let second := fetch' request env (final first) in
  final first = s /\ second = first.
Proof.
  cbv zeta. rewrite (preserves_fetch request env s). split; reflexivity.
Qed.

End Properties.

(** ** Falsy keys *)


(** ** The kinds of handler *)

Lemma login_validates : validates_argument handleLoginCommand.
Proof.
  exists "auth_key". intros interaction env s Hmiss.
  exists auth_key_required. rewrite (login_missing interaction env s Hmiss).
  split; [ reflexivity | vm_compute; reflexivity ].
Qed.





(** ** Names the table inherits *)

Ltac sample_authenticated :=
  unfold authenticated;
  split; [ | split; [ | split ] ]; vm_compute; reflexivity.

(** C3, at a name the table does not hold: the command [constructor] is
    not registered, yet the read of the table finds the inherited [Object]
    function, [fetch] calls it, and the promise resolves to the
    interaction itself instead of a response quoting the name. *)
Theorem inherited_property_is_called_as_handler :
  authenticated Sample.verifyKey Sample.constructor_command Sample.env /\
  assoc (COMMAND_HANDLERS module_scope) "constructor" = None /\
  exists interaction,
    Sample.JSON_parse (text Sample.constructor_command) = Some interaction /\
    names_command interaction (JObj [("name", JStr "constructor")]) "constructor" /\
    Sample.run Sample.constructor_command =
      mkRun module_scope
        (auth_trace ++ [EvCall "constructor" (PFunction Fn_Object)])
        (Fulfilled (RetValue interaction)).
Proof.
  split; [ sample_authenticated | ].
  split; [ reflexivity | ].
  eexists. split; [ vm_compute; reflexivity | ].
  split; [ | vm_compute; reflexivity ].
  split; [ | split ]; reflexivity.
Qed.

(** ** The specification's claims that the code does not meet *)

(** C1 fails on a body cut short: the request is authenticated, its body
    is no JSON text, and the promise of [fetch] is rejected; no response,
    and so no "unsupported interaction type" reply, is made. *)
Lemma malformed_body_gets_no_response :
  authenticated Sample.verifyKey Sample.truncated Sample.env /\
  JsonText.parse (text Sample.truncated) = JsonText.PSyntaxError /\
  Sample.run Sample.truncated = mkRun module_scope auth_trace (Rejected SyntaxError) /\
  ~ (exists resp, outcome (Sample.run Sample.truncated) = Fulfilled (RetResponse resp)).
Proof.
  split; [ sample_authenticated | ].
  split; [ vm_compute; reflexivity | ].
  assert (H : Sample.run Sample.truncated
              = mkRun module_scope auth_trace (Rejected SyntaxError))
    by (vm_compute; reflexivity).
  split; [ exact H | ].
  rewrite H. intros (resp & Hresp). discriminate Hresp.
Qed.

(** C2 fails on a login whose options hold [null]: the name resolves to
    the registered handler, the handler throws on [opt.name], and the
    promise of [fetch] is rejected with that [TypeError]; no response is
    made. *)
Lemma faulting_handler_gets_no_response :
  authenticated Sample.verifyKey Sample.login_null_option Sample.env /\
  assoc (COMMAND_HANDLERS module_scope) "login" = Some Fn_handleLoginCommand /\
  Sample.run Sample.login_null_option =
    mkRun module_scope
      (auth_trace ++ [EvCall "login" (PFunction Fn_handleLoginCommand)])
      (Rejected TypeError) /\
  ~ (exists resp,
        outcome (Sample.run Sample.login_null_option) = Fulfilled (RetResponse resp)).
Proof.
  split; [ sample_authenticated | ].
  split; [ reflexivity | ].
  assert (H : Sample.run Sample.login_null_option
              = mkRun module_scope
                  (auth_trace ++ [EvCall "login" (PFunction Fn_handleLoginCommand)])
                  (Rejected TypeError))
    by (vm_compute; reflexivity).
  split; [ exact H | ].
  rewrite H. intros (resp & Hresp). discriminate Hresp.
Qed.

(** ** The theorems at concrete requests *)

Lemma unauthenticated_requests_are_rejected_witness :
  (exists resp,
      Sample.run Sample.get_request
        = mkRun module_scope [] (Fulfilled (RetResponse resp)) /\
      status resp = 405) /\
  (exists resp,
      outcome (Sample.run Sample.unsigned_post) = Fulfilled (RetResponse resp) /\
      status resp = 401 /\
      final (Sample.run Sample.unsigned_post) = module_scope /\
      existsb is_parse (trace (Sample.run Sample.unsigned_post)) = false /\
      existsb is_call (trace (Sample.run Sample.unsigned_post)) = false) /\
  (exists resp,
      outcome (Sample.run Sample.forged_post) = Fulfilled (RetResponse resp) /\
      status resp = 401 /\
      final (Sample.run Sample.forged_post) = module_scope /\
      existsb is_parse (trace (Sample.run Sample.forged_post)) = false /\
      existsb is_call (trace (Sample.run Sample.forged_post)) = false).
Proof.
  pose proof (unauthenticated_requests_are_rejected Sample.verifyKey Sample.JSON_parse)
    as [Hmethod Hsignature].
  split; [ | split ].
  - apply (Hmethod Sample.get_request Sample.env module_scope). discriminate.
  - apply (Hsignature Sample.unsigned_post Sample.env module_scope).
    + reflexivity.
    + left. reflexivity.
  - apply (Hsignature Sample.forged_post Sample.env module_scope).
    + reflexivity.
    + right. right. reflexivity.
Defined.

Lemma malformed_body_rejects_witness :
  Sample.run Sample.truncated = mkRun module_scope auth_trace (Rejected SyntaxError).
Proof.
  apply (malformed_body_rejects Sample.verifyKey Sample.JSON_parse
           Sample.truncated Sample.env module_scope).
  - sample_authenticated.
  - vm_compute. reflexivity.
Defined.

Lemma type_1_is_answered_with_pong_witness :
  Sample.run Sample.ping =
    mkRun module_scope auth_trace
      (Fulfilled
         (RetResponse
            (mkResponse (Some (JsonText.text_of "{'type':1}")) 200
               [("Content-Type", "application/json")]))).
Proof.
  apply (type_1_is_answered_with_pong Sample.verifyKey Sample.JSON_parse
           Sample.ping Sample.env module_scope
           (JObj [("type", JNum 1); ("id", JStr "7"); ("token", JStr "t")])).
  - sample_authenticated.
  - vm_compute. reflexivity.
  - reflexivity.
Defined.

Lemma handler_fault_propagates_witness :
  outcome (Sample.run Sample.login_null_option) = Rejected TypeError /\
  In (EvCall "login" (PFunction Fn_handleLoginCommand))
     (trace (Sample.run Sample.login_null_option)).
Proof.
  apply (handler_fault_propagates Sample.verifyKey Sample.JSON_parse
           Sample.login_null_option Sample.env
           (JObj [("type", JNum 2);
                  ("data", JObj [("name", JStr "login"); ("options", JArr [JNull])])])
           (JObj [("name", JStr "login"); ("options", JArr [JNull])])
           "login" Fn_handleLoginCommand TypeError).
  - sample_authenticated.
  - vm_compute. reflexivity.
  - split; [ | split ]; reflexivity.
  - reflexivity.
  - reflexivity.
Defined.

Lemma login_without_options_requires_key_witness :
  outcome (Sample.run Sample.login_no_options) =
    Fulfilled
      (RetResponse
         (mkResponse
            (Some (JsonText.text_of
                     "{'type':4,'data':{'content':'Auth key is required','flags':64}}"))
            200
            [("Content-Type", "application/json")])).
Proof.
  apply (login_without_options_requires_key Sample.verifyKey Sample.JSON_parse
           Sample.login_no_options Sample.env
           (JObj [("type", JNum 2);
                  ("data", JObj [("name", JStr "login"); ("options", JArr [])])])
           (JObj [("name", JStr "login"); ("options", JArr [])])).
  - sample_authenticated.
  - vm_compute. reflexivity.
  - split; [ | split ]; reflexivity.
  - reflexivity.
Defined.


(** * Further properties *)

(** ** The handlers log nothing and answer 200 *)

Lemma login_trace (interaction : JsValue) (env : Env) (s : Store) :
  trace (handleLoginCommand interaction env s) = [].
Proof.
  unfold handleLoginCommand.
  destruct (Js.get interaction "data") as [data | ];
    [ rewrite bind_lift_fulfilled | reflexivity ].
  destruct (Js.get data "options") as [options | ];
    [ rewrite bind_lift_fulfilled | reflexivity ].
  destruct (Js.opt_find options is_auth_key) as [found | ];
    [ rewrite bind_lift_fulfilled | reflexivity ].
  destruct (Js.opt_get found "value") as [value | ];
    [ rewrite bind_lift_fulfilled | reflexivity ].
  destruct (Js.truthy value); reflexivity.
Qed.

Lemma call_trace (f : FunctionRef) (interaction : JsValue) (env : Env) (s : Store) :
  trace (call f interaction env s) = [].
Proof.
  destruct f; cbn [call]; try reflexivity.
  - apply login_trace.
  - destruct interaction; reflexivity.
Qed.

Lemma invoke_trace (key : string) (found : PropertyValue)
    (interaction : JsValue) (env : Env) (s : Store) :
  trace (invoke key found interaction env s) = [EvCall key found].
Proof.
  destruct found as [f | ].
  - rewrite invoke_function. unfold prepend. cbn [trace].
    rewrite call_trace. reflexivity.
  - reflexivity.
Qed.

Lemma call_response (f : FunctionRef) (interaction : JsValue) (env : Env)
    (s : Store) (resp : Response) :
  outcome (call f interaction env s) = Fulfilled (RetResponse resp) ->
  json_answer resp.
Proof.
  destruct f; cbn [call]; intro H.
  - injection H as <-. repeat split. discriminate.
  - destruct (login_outcome interaction env s _ H) as [E | E];
      injection E as ->; repeat split; discriminate.
  - injection H as <-. repeat split. discriminate.
  - injection H as <-. repeat split. discriminate.
  - injection H as <-. repeat split. discriminate.
  - destruct interaction; discriminate H.
  - discriminate H.
  - destruct interaction; discriminate H.
  - discriminate H.
Qed.

(** ** Routing, whatever the body *)

(** The read of [data.name], converted to a string, decides the route. *)
Lemma route_command_key (interaction data name : JsValue) (key : string)
    (env : Env) (s : Store) :
  has_type interaction 2 ->
  Js.get interaction "data" = Fulfilled data ->
  Js.get data "name" = Fulfilled name ->
  Js.to_string name = Fulfilled key ->
  route interaction env s =
    match object_get (COMMAND_HANDLERS s) key with
    | Some found => invoke key found interaction env s
    | None =>
        mkRun s []
          (Fulfilled
             (RetResponse
                (jsonResponse (ephemeralMessage ("Unknown command: " ++ key)) 200)))
    end.
Proof.
  intros Ht Hd Hn Hk. unfold has_type in Ht. unfold route.
  rewrite Ht, bind_lift_fulfilled. cbn [Js.strict_eq_num Z.eqb Pos.eqb].
  rewrite bind_lift_fulfilled. cbn [Js.strict_eq_num Z.eqb Pos.eqb].
  rewrite Hd, bind_lift_fulfilled, Hn, bind_lift_fulfilled.
  rewrite Hk, bind_lift_fulfilled, bind_read_store.
  destruct (object_get (COMMAND_HANDLERS s) key) as [found | ].
  - reflexivity.
  - rewrite bind_lift_fulfilled. reflexivity.
Qed.

(** Destructs the next completion or test a stuck [route] waits for. *)
Ltac route_step :=
  match goal with
  | |- context [bind (lift ?c) _ _] =>
      let E := fresh "E" in
      destruct c as [? | ?] eqn:E;
      [ rewrite bind_lift_fulfilled | rewrite bind_lift_rejected ]
  | |- context [bind read_store _ _] => rewrite bind_read_store
  | |- context [if ?b then _ else _] =>
      let E := fresh "E" in destruct b eqn:E
  | |- context [match object_get ?t ?k with _ => _ end] =>
      let E := fresh "E" in destruct (object_get t k) as [? | ] eqn:E
  end.

Lemma route_trace (interaction : JsValue) (env : Env) (s : Store) :
  trace (route interaction env s) = [] \/
  exists key found,
    object_get (COMMAND_HANDLERS s) key = Some found /\
    trace (route interaction env s) = [EvCall key found].
Proof.
  unfold route.
  repeat route_step; try (left; reflexivity).
  right. eexists. eexists. split; [ eassumption | apply invoke_trace ].
Qed.

Lemma route_response (interaction : JsValue) (env : Env) (s : Store)
    (resp : Response) :
  outcome (route interaction env s) = Fulfilled (RetResponse resp) ->
  json_answer resp.
Proof.
  unfold route.
  repeat route_step; intro H; try discriminate H.
  - injection H as <-. repeat split. discriminate.
  - match goal with
    | p : PropertyValue |- _ => destruct p as [f | ]
    end.
    + rewrite invoke_function in H. unfold prepend in H. cbn [outcome] in H.
      exact (call_response f interaction env s resp H).
    + discriminate H.
  - injection H as <-. repeat split. discriminate.
  - injection H as <-. repeat split. discriminate.
Qed.

(** ** Bodies read back *)

Lemma append_assoc (a b c : string) : (a ++ b) ++ c = a ++ (b ++ c).
Proof.
  induction a as [ | x a IH ]; cbn [append]; [ reflexivity | now rewrite IH ].
Qed.

Lemma plain_text_app (a b : string) :
  plain_text (a ++ b) = plain_text a && plain_text b.
Proof.
  induction a as [ | x a IH ]; cbn [append plain_text];
    [ reflexivity | now rewrite IH, andb_assoc ].
Qed.

(** The reader undoes [QuoteJSONString] on text that needs no [\u]. *)
Lemma string_body_escape (s rest : string) :
  plain_text s = true ->
  JsonText.string_body (JSON.escape s ++ String Js.dquote_char rest)
  = JsonText.POk (s, rest).
Proof.
  induction s as [ | a s IH ]; intro H.
  - reflexivity.
  - cbn [plain_text] in H. apply andb_true_iff in H. destruct H as [Ha Hs].
    specialize (IH Hs). cbn [JSON.escape]. rewrite append_assoc.
    remember (JSON.escape s ++ String Js.dquote_char rest) as tail eqn:Et.
    clear Et.
    destruct a as [b0 b1 b2 b3 b4 b5 b6 b7].
    destruct b0, b1, b2, b3, b4, b5, b6, b7; try discriminate Ha.
    all: match goal with
         | |- context [JSON.escape_char ?c] =>
             let v := eval vm_compute in (JSON.escape_char c) in
             change (JSON.escape_char c) with v
         end; cbn; rewrite IH; reflexivity.
Qed.

(** Brings a serialisation with one symbolic text in it to the form
    prefix, escaped text, suffix. *)
Ltac flatten :=
  cbn; cbv - [JSON.escape append];
  repeat (progress (rewrite ?append_assoc; cbn [append])).

(** Enough fuel: the reader is given twice the length of the text. *)
Ltac enough_fuel n :=
  match goal with
  | |- context [JsonText.value ?f0 _] =>
      let f := fresh "f" in
      let Ef := fresh "Ef" in
      let Hf := fresh "Hf" in
      let k := fresh "k" in
      remember f0 as f eqn:Ef;
      assert (Hf : exists k, f = (n + k)%nat)
        by (exists (f - n)%nat; subst f;
            cbn [JsonText.text_of String.length append]; lia);
      destruct Hf as (k & ->); clear Ef
  end.

Lemma stringify_ephemeralMessage (content : string) :
  JSON.stringify (ephemeralMessage content) =
    Some (JsonText.text_of "{'type':4,'data':{'content':'"
          ++ JSON.escape content
          ++ String Js.dquote_char (JsonText.text_of ",'flags':64}}")).
Proof. unfold ephemeralMessage. flatten. reflexivity. Qed.

Lemma parse_ephemeralMessage (content : string) :
  plain_text content = true ->
  JsonText.parse
    (JsonText.text_of "{'type':4,'data':{'content':'"
     ++ JSON.escape content
     ++ String Js.dquote_char (JsonText.text_of ",'flags':64}}"))
  = JsonText.POk (ephemeralMessage content).
Proof.
  intro H. unfold JsonText.parse. enough_fuel 8%nat.
  pose proof (string_body_escape content (JsonText.text_of ",'flags':64}}") H)
    as Htail.
  remember (JSON.escape content
            ++ String Js.dquote_char (JsonText.text_of ",'flags':64}}"))
    as tail eqn:Et.
  clear Et. simpl. rewrite Htail. simpl. reflexivity.
Qed.

(** An ephemeral message of plain text reads back from the wire as it
    was built. *)
Lemma envelope_ephemeralMessage (content : string) (code : Z) :
  plain_text content = true ->
  envelope (RetResponse (jsonResponse (ephemeralMessage content) code))
  = Some (ephemeralMessage content).
Proof.
  intro H. unfold envelope, jsonResponse. cbn [body].
  rewrite stringify_ephemeralMessage, (parse_ephemeralMessage content H).
  reflexivity.
Qed.

Section Further.

Variable verifyKey : string -> string -> string -> JsValue -> bool.
Variable JSON_parse : string -> option JsValue.

#[local] Abbreviation fetch' := (fetch verifyKey JSON_parse).
#[local] Abbreviation authenticated' := (authenticated verifyKey).

(** Every request falls under one of four cases. *)
Lemma request_cases (request : Request) (env : Env) :
  method request <> "POST" \/
  (method request = "POST" /\
   (header_falsy (headers request "X-Signature-Ed25519") = true \/
    header_falsy (headers request "X-Signature-Timestamp") = true)) \/
  (method request = "POST" /\
   header_falsy (headers request "X-Signature-Ed25519") = false /\
   header_falsy (headers request "X-Signature-Timestamp") = false /\
   verifyKey (text request)
     (header_text (headers request "X-Signature-Ed25519"))
     (header_text (headers request "X-Signature-Timestamp"))
     (DISCORD_PUBLIC_KEY env) = false) \/
  authenticated' request env.
Proof.
  destruct (String.eqb_spec (method request) "POST") as [Hm | Hm];
    [ | left; exact Hm ].
  right.
  destruct (header_falsy (headers request "X-Signature-Ed25519")) eqn:Hs;
    [ left; auto | ].
  destruct (header_falsy (headers request "X-Signature-Timestamp")) eqn:Ht;
    [ left; auto | ].
  right.
  destruct (verifyKey (text request)
              (header_text (headers request "X-Signature-Ed25519"))
              (header_text (headers request "X-Signature-Timestamp"))
              (DISCORD_PUBLIC_KEY env)) eqn:Hv.
  - right. repeat split; assumption.
  - left. repeat split; assumption.
Qed.

(** X2: the status of a response tells how far the request got.  When
    [fetch] resolves to a response, it is the 405 text for a wrong method,
    one of the two 401 texts for a [POST] that is not authenticated, and
    otherwise, for an authenticated request, a 200 with the JSON content
    type and a body. *)
Theorem response_status_tells_the_stage
    (request : Request) (env : Env) (s : Store) (resp : Response) :
  outcome (fetch' request env s) = Fulfilled (RetResponse resp) ->
  (method request <> "POST" /\ resp = textResponse "Method not allowed" 405) \/
  (method request = "POST" /\ ~ authenticated' request env /\
   (resp = textResponse "Missing signature headers" 401 \/
    resp = textResponse "Invalid signature" 401)) \/
  (authenticated' request env /\ json_answer resp).
Proof.
  destruct (request_cases request env)
    as [Hm | [(Hm & Hmiss) | [(Hm & Hs & Ht & Hv) | Ha]]].
  - rewrite (fetch_wrong_method _ _ request env s Hm). intro H.
    injection H as <-. left. auto.
  - rewrite (fetch_missing_headers _ _ request env s Hm Hmiss). intro H.
    injection H as <-. right. left. split; [ exact Hm | ]. split; [ | auto ].
    intros (_ & Hs & Ht & _). destruct Hmiss; congruence.
  - rewrite (fetch_invalid_signature _ _ request env s Hm Hs Ht Hv). intro H.
    injection H as <-. right. left. split; [ exact Hm | ]. split; [ | auto ].
    intros (_ & _ & _ & Hv'). congruence.
  - rewrite (fetch_authenticated _ _ request env s Ha).
    destruct (JSON_parse (text request)) as [interaction | ];
      [ | discriminate ].
    unfold prepend. cbn [outcome]. intro H. right. right.
    split; [ exact Ha | exact (route_response interaction env s resp H) ].
Qed.
(** X3: an authenticated request whose body parses to anything but
    [null] and whose [type] is neither the number 1 nor the number 2 (a
    missing type, the string "1", a body that is an array or a number) is
    answered 200 with the body
    [{"type":4,"data":{"content":"Unsupported interaction type","flags":64}}];
    nothing from the table is called. *)
Theorem other_types_are_unsupported
    (request : Request) (env : Env) (s : Store) (interaction type : JsValue) :
  authenticated' request env ->
  JSON_parse (text request) = Some interaction ->
  Js.get interaction "type" = Fulfilled type ->
  Js.strict_eq_num type 1 = false ->
  Js.strict_eq_num type 2 = false ->
  fetch' request env s =
    mkRun s auth_trace
      (Fulfilled
         (RetResponse
            (mkResponse
               (Some (JsonText.text_of
                        "{'type':4,'data':{'content':'Unsupported interaction type','flags':64}}"))
               200
               [("Content-Type", "application/json")]))).
Proof.
  intros Ha Hp Ht H1 H2.
  rewrite (fetch_authenticated _ _ request env s Ha), Hp.
  rewrite (route_other_type interaction type env s Ht H1 H2).
  vm_compute. reflexivity.
Qed.

(** X4: a type 2 interaction without command data faults in the
    dispatcher itself: the read of [interaction.data.name] throws, the
    promise of [fetch] is rejected with a [TypeError], the table is not
    read and nothing is called. *)
Theorem command_without_data_faults
    (request : Request) (env : Env) (s : Store) (interaction data : JsValue) :
  authenticated' request env ->
  JSON_parse (text request) = Some interaction ->
  has_type interaction 2 ->
  Js.get interaction "data" = Fulfilled data ->
  nullish data = true ->
  fetch' request env s = mkRun s auth_trace (Rejected TypeError).
Proof.
  intros Ha Hp Ht Hd Hn.
  rewrite (fetch_authenticated _ _ request env s Ha), Hp.
  unfold has_type in Ht. unfold route.
  rewrite Ht, bind_lift_fulfilled. cbn [Js.strict_eq_num Z.eqb Pos.eqb].
  rewrite bind_lift_fulfilled. cbn [Js.strict_eq_num Z.eqb Pos.eqb].
  rewrite Hd, bind_lift_fulfilled.
  destruct data; try discriminate Hn; reflexivity.
Qed.

(** X6: a command whose name is neither registered nor inherited, and
    needs no [\u] escape, is answered 200 with an ephemeral message whose
    content, read back from the body on the wire, is "Unknown command: "
    followed by the name as it was sent, quotes and backslashes included;
    nothing is called. *)
Theorem unknown_command_reply_quotes_the_name
    (request : Request) (env : Env) (interaction data : JsValue) (name : string) :
  authenticated' request env ->
  JSON_parse (text request) = Some interaction ->
  names_command interaction data name ->
  ~ In name (map fst (COMMAND_HANDLERS module_scope)) ->
  ~ In name (map fst Object_prototype) ->
  plain_text name = true ->
  exists r d,
    fetch' request env module_scope = mkRun module_scope auth_trace (Fulfilled r) /\
    is_json_ok r = true /\
    envelope r = Some d /\
    is_message d = true /\
    ephemeral d = true /\
    content_of d = Some ("Unknown command: " ++ name).
Proof.
  intros Ha Hp Hc Hown Hproto Hplain.
  rewrite (fetch_unknown_command _ _ request env interaction data name Ha Hp Hc
             (object_get_none name Hown Hproto)).
  eexists. eexists. split; [ reflexivity | ].
  split; [ reflexivity | ].
  split; [ apply envelope_ephemeralMessage; exact Hplain | ].
  repeat split.
Qed.

(** X7: the three shift commands are answered with the placeholder for
    their own name, whatever else the interaction holds (options that
    would make the login handler fault included): status 200, ephemeral,
    one embed that names the command and points to the traditional bot
    deployment. *)
Theorem shift_commands_answer_their_placeholder
    (request : Request) (env : Env) (interaction data : JsValue) (name : string) :
  authenticated' request env ->
  JSON_parse (text request) = Some interaction ->
  names_command interaction data name ->
  In name ["start-shift"; "end-shift"; "shift-status"] ->
  exists f,
    fetch' request env module_scope =
      mkRun module_scope
        (auth_trace ++ [EvCall name (PFunction f)])
        (Fulfilled (RetResponse (featureComingSoonResponse name))) /\
    placeholder_for name (RetResponse (featureComingSoonResponse name)) = true.
Proof.
  intros Ha Hp Hc Hin. cbn [In] in Hin.
  destruct Hin as [<- | [<- | [<- | []]]].
  - exists Fn_handleStartShiftCommand. split; [ | vm_compute; reflexivity ].
    rewrite (fetch_registered _ _ request env interaction data "start-shift"
               Fn_handleStartShiftCommand Ha Hp Hc eq_refl).
    reflexivity.
  - exists Fn_handleEndShiftCommand. split; [ | vm_compute; reflexivity ].
    rewrite (fetch_registered _ _ request env interaction data "end-shift"
               Fn_handleEndShiftCommand Ha Hp Hc eq_refl).
    reflexivity.
  - exists Fn_handleShiftStatusCommand. split; [ | vm_compute; reflexivity ].
    rewrite (fetch_registered _ _ request env interaction data "shift-status"
               Fn_handleShiftStatusCommand Ha Hp Hc eq_refl).
    reflexivity.
Qed.

(** X8: the [ping] command is answered 200 with the body
    [{"type":4,"data":{"embeds":[{"title":"🏓 Pong!","description":"Bot is
    running on Cloudflare Workers!","color":12500734}]}}]: the colour is
    written in decimal and the message carries no flags, so it is not
    ephemeral. *)
Theorem ping_command_answers_pong
    (request : Request) (env : Env) (interaction data : JsValue) :
  authenticated' request env ->
  JSON_parse (text request) = Some interaction ->
  names_command interaction data "ping" ->
  fetch' request env module_scope =
    mkRun module_scope
      (auth_trace ++ [EvCall "ping" (PFunction Fn_handlePingCommand)])
      (Fulfilled
         (RetResponse
            (mkResponse
               (Some (JsonText.text_of
                        "{'type':4,'data':{'embeds':[{'title':'🏓 Pong!','description':'Bot is running on Cloudflare Workers!','color':12500734}]}}"))
               200
               [("Content-Type", "application/json")]))).
Proof.
  intros Ha Hp Hc.
  rewrite (fetch_registered _ _ request env interaction data "ping"
             Fn_handlePingCommand Ha Hp Hc eq_refl).
  vm_compute. reflexivity.
Qed.

End Further.

(** ** The login handler on any options *)

Lemma is_auth_key_unnamed (opt : JsValue) :
  nullish opt = false -> ~ named "auth_key" opt ->
  is_auth_key opt = Fulfilled false.
Proof.
  intros Hn Hnot. destruct opt; try discriminate Hn; try reflexivity.
  apply is_auth_key_false; [ reflexivity | exact Hnot ].
Qed.

Lemma is_auth_key_nullish (opt : JsValue) :
  nullish opt = true -> is_auth_key opt = Rejected TypeError.
Proof. destruct opt; try discriminate; reflexivity. Qed.

Lemma opt_get_completes (v : JsValue) (key : string) :
  Js.opt_get v key = Fulfilled (field v key).
Proof.
  unfold field. destruct v; cbn [Js.opt_get Js.get]; try reflexivity.
  destruct (Js.own props key); reflexivity.
Qed.

Lemma find_scan (opts : list JsValue) :
  (exists before bad after,
      opts = (before ++ bad :: after)%list /\
      Forall (fun o => nullish o = false /\ ~ named "auth_key" o) before /\
      nullish bad = true /\
      Js.array_find is_auth_key opts = Rejected TypeError) \/
  (exists found, Js.array_find is_auth_key opts = Fulfilled found).
Proof.
  induction opts as [ | o opts IH ].
  - right. exists JUndefined. reflexivity.
  - cbn [Js.array_find].
    destruct (nullish o) eqn:Hn.
    + left. exists [], o, opts. rewrite (is_auth_key_nullish o Hn).
      repeat split; auto.
    + destruct (is_auth_key o) as [[ | ] | e] eqn:E.
      * right. exists o. reflexivity.
      * destruct IH as [(before & bad & after & -> & Hb & Hbad & Hf) | (found & Hf)].
        -- left. exists (o :: before), bad, after.
           repeat split; auto. constructor; [ | exact Hb ].
           split; [ exact Hn | ]. intro Hnamed.
           apply is_auth_key_true in Hnamed. congruence.
        -- right. exists found. exact Hf.
      * exfalso. destruct o; try discriminate Hn; try discriminate E.
        unfold is_auth_key in E. cbn [Js.get] in E.
        destruct (Js.own props "name"); discriminate.
Qed.

Lemma find_first_any (before : list JsValue) (entry : JsValue) (after : list JsValue) :
  Forall (fun o => nullish o = false /\ ~ named "auth_key" o) before ->
  named "auth_key" entry ->
  Js.array_find is_auth_key (before ++ entry :: after) = Fulfilled entry.
Proof.
  intros Hb He. induction Hb as [ | o before [Ho Hn] _ IH ]; cbn [app Js.array_find].
  - apply is_auth_key_true in He. rewrite He. reflexivity.
  - rewrite (is_auth_key_unnamed o Ho Hn). exact IH.
Qed.

Lemma find_stops_at_nullish (before : list JsValue) (bad : JsValue) (after : list JsValue) :
  Forall (fun o => nullish o = false /\ ~ named "auth_key" o) before ->
  nullish bad = true ->
  Js.array_find is_auth_key (before ++ bad :: after) = Rejected TypeError.
Proof.
  intros Hb Hbad. induction Hb as [ | o before [Ho Hn] _ IH ]; cbn [app Js.array_find].
  - rewrite (is_auth_key_nullish bad Hbad). reflexivity.
  - rewrite (is_auth_key_unnamed o Ho Hn). exact IH.
Qed.

Lemma login_by_find (interaction data options : JsValue) (env : Env) (s : Store) :
  Js.get interaction "data" = Fulfilled data ->
  Js.get data "options" = Fulfilled options ->
  handleLoginCommand interaction env s =
    match Js.opt_find options is_auth_key with
    | Fulfilled found =>
        mkRun s []
          (Fulfilled
             (if Js.truthy (field found "value")
              then RetResponse (featureComingSoonResponse "login")
              else auth_key_required))
    | Rejected e => mkRun s [] (Rejected e)
    end.
Proof.
  intros Hd Ho.
  destruct (Js.opt_find options is_auth_key) as [found | e] eqn:Hf.
  - exact (login_run interaction data options found (field found "value") env s
             Hd Ho Hf (opt_get_completes found "value")).
  - unfold handleLoginCommand.
    rewrite Hd, bind_lift_fulfilled, Ho, bind_lift_fulfilled, Hf.
    apply bind_lift_rejected.
Qed.

(** X9: the login handler reads the first entry named [auth_key] and
    nothing after it.  When the entries before it are neither [null] nor
    named [auth_key], the answer depends on the truthiness of that entry's
    value alone, whatever follows it in the list, a [null] or a second
    [auth_key] included. *)
Theorem login_reads_the_first_auth_key
    (interaction data : JsValue) (before after : list JsValue)
    (entry : JsValue) (env : Env) (s : Store) :
  Js.get interaction "data" = Fulfilled data ->
  Js.get data "options" = Fulfilled (JArr (before ++ entry :: after)) ->
  Forall (fun o => nullish o = false /\ ~ named "auth_key" o) before ->
  named "auth_key" entry ->
  handleLoginCommand interaction env s =
    mkRun s []
      (Fulfilled
         (if Js.truthy (field entry "value")
          then RetResponse (featureComingSoonResponse "login")
          else auth_key_required)).
Proof.
  intros Hd Ho Hb He.
  rewrite (login_by_find interaction data _ env s Hd Ho).
  cbn [Js.opt_find]. rewrite (find_first_any before entry after Hb He).
  reflexivity.
Qed.

(** X10: when the login handler faults.  On an interaction with command
    data, it throws (a [TypeError]) exactly when the options are neither
    absent, [null] nor a list, or are a list in which a [null] entry comes
    before any entry named [auth_key]; in every other case it answers. *)
Theorem login_faults_exactly_when
    (interaction data options : JsValue) (env : Env) (s : Store) :
  Js.get interaction "data" = Fulfilled data ->
  Js.get data "options" = Fulfilled options ->
  (outcome (handleLoginCommand interaction env s) = Rejected TypeError <->
   (nullish options = false /\ forall l, options <> JArr l) \/
   (exists before bad after,
       options = JArr (before ++ bad :: after) /\
       Forall (fun o => nullish o = false /\ ~ named "auth_key" o) before /\
       nullish bad = true)) /\
  (forall e, outcome (handleLoginCommand interaction env s) = Rejected e ->
             e = TypeError).
Proof.
  intros Hd Ho. rewrite (login_by_find interaction data options env s Hd Ho).
  split; [ split | ].
  - intro H. destruct options; cbn [Js.opt_find] in H; try discriminate H;
      try (left; split; [ reflexivity | discriminate ]).
    right.
    destruct (find_scan elems)
      as [(before & bad & after & -> & Hb & Hbad & _) | (found & Hf)].
    + exists before, bad, after. auto.
    + rewrite Hf in H. discriminate H.
  - intros [[Hn Hl] | (before & bad & after & -> & Hb & Hbad)].
    + destruct options; try discriminate Hn; try reflexivity.
      exfalso. exact (Hl elems eq_refl).
    + cbn [Js.opt_find]. rewrite (find_stops_at_nullish before bad after Hb Hbad).
      reflexivity.
  - intros e H.
    destruct (Js.opt_find options is_auth_key) as [found | e'] eqn:Hf;
      [ discriminate H | ].
    injection H as <-.
    destruct options; cbn [Js.opt_find] in Hf; try discriminate Hf;
      try (injection Hf as <-; reflexivity).
    exact (find_fault elems e' Hf).
Qed.

(** ** The placeholder for any command name *)

(** Character codes are computed when the reader runs on a literal. *)
#[local] Arguments Pos.to_nat x : simpl nomatch.
#[local] Arguments PosDef.Pos.to_nat x : simpl nomatch.

(** X11: for any command name that needs no [\u] escape, quotes and
    backslashes included, the body [featureComingSoonResponse] puts on the
    wire is JSON text that reads back as the envelope it was built from:
    the name cannot break out of the description. *)
Theorem placeholder_reads_back (commandName : string) :
  plain_text commandName = true ->
  is_json_ok (RetResponse (featureComingSoonResponse commandName)) = true /\
  envelope (RetResponse (featureComingSoonResponse commandName))
  = Some (featureComingSoonData commandName).
Proof.
  intro H. split; [ reflexivity | ].
  unfold envelope, featureComingSoonResponse, jsonResponse, featureComingSoonData.
  cbn [body].
  remember ("The `" ++ commandName ++
            "` command is available in the traditional bot deployment. Full Cloudflare Workers implementation coming soon!")
    as description eqn:Ed.
  assert (Hplain : plain_text description = true).
  { subst description. rewrite !plain_text_app, H. reflexivity. }
  clear Ed.
  match goal with
  | |- context [JSON.stringify ?d] =>
      assert (Hs : JSON.stringify d =
                   Some (JsonText.text_of
                           "{'type':4,'data':{'embeds':[{'title':'Feature in Development','description':'"
                         ++ JSON.escape description
                         ++ String Js.dquote_char
                              (JsonText.text_of
                                 ",'color':12500734,'footer':{'text':'Use the traditional bot (bot.py) for full functionality'}}],'flags':64}}")))
        by (flatten; reflexivity)
  end.
  rewrite Hs. unfold JsonText.parse. enough_fuel 16%nat.
  pose proof (string_body_escape description
                (JsonText.text_of
                   ",'color':12500734,'footer':{'text':'Use the traditional bot (bot.py) for full functionality'}}],'flags':64}}")
                Hplain) as Htail.
  match type of Htail with
  | JsonText.string_body ?t = _ => remember t as tail eqn:Et
  end.
  clear Et. cbn. rewrite Htail. cbn. reflexivity.
Qed.

(** ** The registered commands *)

Section Registered.

Variable verifyKey : string -> string -> string -> JsValue -> bool.
Variable JSON_parse : string -> option JsValue.

#[local] Abbreviation fetch' := (fetch verifyKey JSON_parse).
#[local] Abbreviation authenticated' := (authenticated verifyKey).

(** X12: the commands the deployment guide registers are the commands the
    worker handles.  An authenticated interaction that invokes one of them
    as registered (for [login], with its required string option
    [auth_key]) resolves to an own entry of the table, whose handler is
    called once and answers 200 with a JSON body: such a request is never
    told "Unknown command" and never faults. *)
Theorem catalog_commands_are_answered
    (request : Request) (env : Env) (interaction data : JsValue)
    (c : Catalog.CommandSpec) :
  In c Catalog.commands ->
  authenticated' request env ->
  JSON_parse (text request) = Some interaction ->
  Catalog.conforms c interaction data ->
  exists f resp,
    assoc (COMMAND_HANDLERS module_scope) (Catalog.command_name c) = Some f /\
    fetch' request env module_scope =
      mkRun module_scope
        (auth_trace ++ [EvCall (Catalog.command_name c) (PFunction f)])
        (Fulfilled (RetResponse resp)) /\
    json_answer resp.
Proof.
  intros Hin Ha Hp (Hc & opts & Hopts & Hall & Hreq).
  cbn [Catalog.commands In] in Hin.
  destruct Hin as [<- | [<- | [<- | [<- | [<- | []]]]]];
    cbn [Catalog.command_name Catalog.command_options] in *.
  - exists Fn_handlePingCommand. eexists. split; [ reflexivity | ].
    rewrite (fetch_registered _ _ request env interaction data "ping"
               Fn_handlePingCommand Ha Hp Hc eq_refl).
    split; [ reflexivity | ]. repeat split. discriminate.
  - exists Fn_handleLoginCommand.
    destruct (Hreq _ (or_introl eq_refl) eq_refl) as (o & Ho & _).
    destruct opts as [ | first rest ]; [ destruct Ho | ].
    destruct Hopts as [Hopts | [_ Hnil]]; [ | discriminate Hnil ].
    apply Forall_inv in Hall.
    destruct Hall as (_ & spec & [<- | []] & Hnamed & Hvalue).
    destruct (Hvalue eq_refl) as (v & Hv).
    cbn [Catalog.option_name] in Hnamed.
    assert (Hget : Js.opt_get first "value" = Fulfilled (JStr v)).
    { destruct first; try exact Hv; discriminate Hv. }
    rewrite (fetch_login _ _ request env interaction data (JArr (first :: rest))
               first (JStr v) Ha Hp Hc Hopts
               (find_first_any [] first rest (Forall_nil _) Hnamed) Hget).
    destruct (Js.truthy (JStr v)); eexists;
      (split; [ reflexivity | ]); (split; [ reflexivity | ]);
      repeat split; discriminate.
  - exists Fn_handleStartShiftCommand. eexists. split; [ reflexivity | ].
    rewrite (fetch_registered _ _ request env interaction data "start-shift"
               Fn_handleStartShiftCommand Ha Hp Hc eq_refl).
    split; [ reflexivity | ]. repeat split. discriminate.
  - exists Fn_handleEndShiftCommand. eexists. split; [ reflexivity | ].
    rewrite (fetch_registered _ _ request env interaction data "end-shift"
               Fn_handleEndShiftCommand Ha Hp Hc eq_refl).
    split; [ reflexivity | ]. repeat split. discriminate.
  - exists Fn_handleShiftStatusCommand. eexists. split; [ reflexivity | ].
    rewrite (fetch_registered _ _ request env interaction data "shift-status"
               Fn_handleShiftStatusCommand Ha Hp Hc eq_refl).
    split; [ reflexivity | ]. repeat split. discriminate.
Qed.

End Registered.

(** ** The further theorems at concrete requests *)

Lemma response_status_tells_the_stage_witness :
  (method Sample.forged_post = "POST" /\
   ~ authenticated Sample.verifyKey Sample.forged_post Sample.env /\
   (textResponse "Invalid signature" 401 = textResponse "Missing signature headers" 401 \/
    textResponse "Invalid signature" 401 = textResponse "Invalid signature" 401)) \/
  (method Sample.forged_post <> "POST" /\
   textResponse "Invalid signature" 401 = textResponse "Method not allowed" 405) \/
  (authenticated Sample.verifyKey Sample.forged_post Sample.env /\
   json_answer (textResponse "Invalid signature" 401)).
Proof.
  destruct (response_status_tells_the_stage Sample.verifyKey Sample.JSON_parse
              Sample.forged_post Sample.env module_scope
              (textResponse "Invalid signature" 401))
    as [H | [H | H]].
  - vm_compute. reflexivity.
  - right. left. exact H.
  - left. exact H.
  - right. right. exact H.
Defined.

Lemma other_types_are_unsupported_witness :
  Sample.run MoreSamples.array_body =
    mkRun module_scope auth_trace
      (Fulfilled
         (RetResponse
            (mkResponse
               (Some (JsonText.text_of
                        "{'type':4,'data':{'content':'Unsupported interaction type','flags':64}}"))
               200
               [("Content-Type", "application/json")]))) /\
  outcome (Sample.run MoreSamples.string_type)
  = outcome (Sample.run MoreSamples.array_body).
Proof.
  split.
  - apply (other_types_are_unsupported Sample.verifyKey Sample.JSON_parse
             MoreSamples.array_body Sample.env module_scope
             (JArr [JNum 1; JNum 2]) JUndefined).
    + sample_authenticated.
    + vm_compute. reflexivity.
    + reflexivity.
    + reflexivity.
    + reflexivity.
  - unfold Sample.run.
    rewrite (other_types_are_unsupported Sample.verifyKey Sample.JSON_parse
               MoreSamples.string_type Sample.env module_scope
               (JObj [("type", JStr "1")]) (JStr "1"));
      [ vm_compute; reflexivity
      | sample_authenticated
      | vm_compute; reflexivity
      | reflexivity | reflexivity | reflexivity ].
Defined.

Lemma command_without_data_faults_witness :
  Sample.run MoreSamples.command_without_data
  = mkRun module_scope auth_trace (Rejected TypeError).
Proof.
  apply (command_without_data_faults Sample.verifyKey Sample.JSON_parse
           MoreSamples.command_without_data Sample.env module_scope
           (JObj [("type", JNum 2)]) JUndefined).
  - sample_authenticated.
  - vm_compute. reflexivity.
  - reflexivity.
  - reflexivity.
  - reflexivity.
Defined.

Lemma unknown_command_reply_quotes_the_name_witness :
  exists r d,
    Sample.run MoreSamples.command_with_quotes
    = mkRun module_scope auth_trace (Fulfilled r) /\
    is_json_ok r = true /\
    envelope r = Some d /\
    is_message d = true /\
    ephemeral d = true /\
    content_of d = Some ("Unknown command: " ++ MoreSamples.quoted_name).
Proof.
  apply (unknown_command_reply_quotes_the_name Sample.verifyKey Sample.JSON_parse
           MoreSamples.command_with_quotes Sample.env
           (JObj [("type", JNum 2);
                  ("data", JObj [("name", JStr MoreSamples.quoted_name)])])
           (JObj [("name", JStr MoreSamples.quoted_name)])
           MoreSamples.quoted_name).
  - sample_authenticated.
  - vm_compute. reflexivity.
  - split; [ | split ]; reflexivity.
  - vm_compute. intro H.
    repeat (destruct H as [H | H]; [ discriminate H | ]). exact H.
  - vm_compute. intro H.
    repeat (destruct H as [H | H]; [ discriminate H | ]). exact H.
  - reflexivity.
Defined.

Lemma shift_commands_answer_their_placeholder_witness :
  exists f,
    Sample.run MoreSamples.start_shift =
      mkRun module_scope
        (auth_trace ++ [EvCall "start-shift" (PFunction f)])
        (Fulfilled (RetResponse (featureComingSoonResponse "start-shift"))) /\
    placeholder_for "start-shift"
      (RetResponse (featureComingSoonResponse "start-shift")) = true.
Proof.
  apply (shift_commands_answer_their_placeholder Sample.verifyKey Sample.JSON_parse
           MoreSamples.start_shift Sample.env
           (JObj [("type", JNum 2);
                  ("data",
                    JObj [("name", JStr "start-shift"); ("options", JArr [JNull])])])
           (JObj [("name", JStr "start-shift"); ("options", JArr [JNull])])
           "start-shift").
  - sample_authenticated.
  - vm_compute. reflexivity.
  - split; [ | split ]; reflexivity.
  - left. reflexivity.
Defined.

Lemma ping_command_answers_pong_witness :
  Sample.run MoreSamples.ping_command =
    mkRun module_scope
      (auth_trace ++ [EvCall "ping" (PFunction Fn_handlePingCommand)])
      (Fulfilled
         (RetResponse
            (mkResponse
               (Some (JsonText.text_of
                        "{'type':4,'data':{'embeds':[{'title':'🏓 Pong!','description':'Bot is running on Cloudflare Workers!','color':12500734}]}}"))
               200
               [("Content-Type", "application/json")]))).
Proof.
  apply (ping_command_answers_pong Sample.verifyKey Sample.JSON_parse
           MoreSamples.ping_command Sample.env
           (JObj [("type", JNum 2); ("data", JObj [("name", JStr "ping")])])
           (JObj [("name", JStr "ping")])).
  - sample_authenticated.
  - vm_compute. reflexivity.
  - split; [ | split ]; reflexivity.
Defined.

Lemma login_reads_the_first_auth_key_witness :
  handleLoginCommand
    (JObj
       [("data",
          JObj
            [("options",
               JArr
                 [ JStr "stray";
                   JObj [("name", JStr "auth_key"); ("value", JStr "k")];
                   JNull;
                   JObj [("name", JStr "auth_key"); ("value", JStr "")] ])])])
    Sample.env module_scope
  = mkRun module_scope []
      (Fulfilled (RetResponse (featureComingSoonResponse "login"))).
Proof.
  apply (login_reads_the_first_auth_key
           (JObj
              [("data",
                 JObj
                   [("options",
                      JArr
                        [ JStr "stray";
                          JObj [("name", JStr "auth_key"); ("value", JStr "k")];
                          JNull;
                          JObj [("name", JStr "auth_key"); ("value", JStr "")] ])])])
           (JObj
              [("options",
                 JArr
                   [ JStr "stray";
                     JObj [("name", JStr "auth_key"); ("value", JStr "k")];
                     JNull;
                     JObj [("name", JStr "auth_key"); ("value", JStr "")] ])])
           [JStr "stray"]
           [JNull; JObj [("name", JStr "auth_key"); ("value", JStr "")]]
           (JObj [("name", JStr "auth_key"); ("value", JStr "k")])
           Sample.env module_scope).
  - reflexivity.
  - reflexivity.
  - constructor; [ | constructor ]. split; [ reflexivity | discriminate ].
  - reflexivity.
Defined.

Lemma login_faults_exactly_when_witness :
  outcome
    (handleLoginCommand
       (JObj [("data", JObj [("options", JNum 5)])]) Sample.env module_scope)
  = Rejected TypeError.
Proof.
  apply (proj1 (login_faults_exactly_when
                  (JObj [("data", JObj [("options", JNum 5)])])
                  (JObj [("options", JNum 5)]) (JNum 5)
                  Sample.env module_scope eq_refl eq_refl)).
  left. split; [ reflexivity | discriminate ].
Defined.

Lemma placeholder_reads_back_witness :
  is_json_ok (RetResponse (featureComingSoonResponse MoreSamples.quoted_name)) = true /\
  envelope (RetResponse (featureComingSoonResponse MoreSamples.quoted_name))
  = Some (featureComingSoonData MoreSamples.quoted_name).
Proof.
  apply (placeholder_reads_back MoreSamples.quoted_name). reflexivity.
Defined.

Lemma catalog_commands_are_answered_witness :
  exists f resp,
    assoc (COMMAND_HANDLERS module_scope) "login" = Some f /\
    Sample.run Sample.login_abc123 =
      mkRun module_scope
        (auth_trace ++ [EvCall "login" (PFunction f)])
        (Fulfilled (RetResponse resp)) /\
    json_answer resp.
Proof.
  apply (catalog_commands_are_answered Sample.verifyKey Sample.JSON_parse
           Sample.login_abc123 Sample.env
           (JObj [("type", JNum 2);
                  ("data",
                    JObj [("name", JStr "login");
                          ("options",
                            JArr [JObj [("name", JStr "auth_key");
                                        ("value", JStr "abc123")]])])])
           (JObj [("name", JStr "login");
                  ("options",
                    JArr [JObj [("name", JStr "auth_key"); ("value", JStr "abc123")]])])
           (Catalog.mkCommand "login" "Link your PocketBase auth key." 1
              [ Catalog.mkOption "auth_key"
                  "Your PocketBase auth key from the staff portal." 3 true ])).
  - right. left. reflexivity.
  - sample_authenticated.
  - vm_compute. reflexivity.
  - split; [ split; [ | split ]; reflexivity | ].
    exists [JObj [("name", JStr "auth_key"); ("value", JStr "abc123")]].
    split; [ left; reflexivity | ].
    split.
    + constructor; [ | constructor ].
      split; [ reflexivity | ].
      eexists. split; [ left; reflexivity | ].
      split; [ reflexivity | intros _; eexists; reflexivity ].
    + intros spec [<- | []] _. eexists. split; [ left; reflexivity | ].
      split; [ reflexivity | intros _; eexists; reflexivity ].
Defined.

(** ** The login command and the first key *)

Lemma login_supplied (interaction : JsValue) (env : Env) (s : Store) :
  argument_supplied "auth_key" interaction ->
  handleLoginCommand interaction env s =
    mkRun s [] (Fulfilled (RetResponse (featureComingSoonResponse "login"))).
Proof.
  intros (data & before & entry & after & Hd & Ho & Hb & He & Hv).
  rewrite (login_by_find interaction data _ env s Hd Ho).
  cbn [Js.opt_find]. rewrite (find_first_any before entry after Hb He), Hv.
  reflexivity.
Qed.

Section Dispatch.

Variable verifyKey : string -> string -> string -> JsValue -> bool.
Variable JSON_parse : string -> option JsValue.

#[local] Abbreviation fetch' := (fetch verifyKey JSON_parse).
#[local] Abbreviation authenticated' := (authenticated verifyKey).

(** C7, as the code has it: an authenticated type 2 request that names
    [login] and supplies [auth_key] (the first options entry of that name
    has a truthy value, a non-empty string for one, and no [null] entry
    comes before it) is answered 200 with an ephemeral envelope of one
    embed, titled "Feature in Development", whose description mentions
    [login]. *)
Theorem login_with_first_key_is_in_development
    (request : Request) (env : Env) (interaction data : JsValue) :
  authenticated' request env ->
  JSON_parse (text request) = Some interaction ->
  names_command interaction data "login" ->
  argument_supplied "auth_key" interaction ->
  exists r d e,
    outcome (fetch' request env module_scope) = Fulfilled r /\
    is_json_ok r = true /\
    envelope r = Some d /\
    ephemeral d = true /\
    embeds_of d = [e] /\
    field e "title" = JStr "Feature in Development" /\
    mentions "login" (text_field e "description") = true.
Proof.
  intros Ha Hp Hc Hsup.
  rewrite (fetch_registered _ _ request env interaction data "login"
             Fn_handleLoginCommand Ha Hp Hc eq_refl).
  cbn [call]. rewrite (login_supplied interaction env module_scope Hsup).
  unfold prepend. cbn [outcome].
  eexists. eexists. eexists.
  split; [ reflexivity | ].
  split; [ vm_compute; reflexivity | ].
  split; [ vm_compute; reflexivity | ].
  split; [ vm_compute; reflexivity | ].
  split; [ vm_compute; reflexivity | ].
  split; vm_compute; reflexivity.
Qed.

(** X1: the collaborators are called in a fixed order and only as far as
    the checks allow.  A request with a wrong method logs nothing.  A
    [POST] with a signature header missing or empty logs the two header
    reads and nothing more: the body is not read and [verifyKey] is not
    called.  A [POST] with both headers whose signature is refused logs
    the header reads, the body read and the signature check, and no
    parse.  An authenticated request logs all five calls up to
    [JSON.parse], followed by at most one call, of a value the table
    holds under the logged key. *)
Theorem collaborator_calls_follow_the_checks
    (request : Request) (env : Env) (s : Store) :
  let r := fetch' request env s in
  (method request <> "POST" -> trace r = []) /\
  (method request = "POST" ->
   header_falsy (headers request "X-Signature-Ed25519") = true \/
   header_falsy (headers request "X-Signature-Timestamp") = true ->
   trace r =
     [ EvHeadersGet "X-Signature-Ed25519"; EvHeadersGet "X-Signature-Timestamp" ]) /\
  (method request = "POST" ->
   header_falsy (headers request "X-Signature-Ed25519") = false ->
   header_falsy (headers request "X-Signature-Timestamp") = false ->
   verifyKey (text request)
     (header_text (headers request "X-Signature-Ed25519"))
     (header_text (headers request "X-Signature-Timestamp"))
     (DISCORD_PUBLIC_KEY env) = false ->
   trace r =
     [ EvHeadersGet "X-Signature-Ed25519"; EvHeadersGet "X-Signature-Timestamp";
       EvText; EvVerifyKey ]) /\
  (authenticated' request env ->
   trace r = auth_trace \/
   exists key found,
     object_get (COMMAND_HANDLERS s) key = Some found /\
     trace r = (auth_trace ++ [EvCall key found])%list).
Proof.
  cbv zeta. split; [ | split; [ | split ] ].
  - intro Hm. rewrite (fetch_wrong_method _ _ request env s Hm). reflexivity.
  - intros Hm Hmiss.
    rewrite (fetch_missing_headers _ _ request env s Hm Hmiss). reflexivity.
  - intros Hm Hs Ht Hv.
    rewrite (fetch_invalid_signature _ _ request env s Hm Hs Ht Hv). reflexivity.
  - intro Ha. rewrite (fetch_authenticated _ _ request env s Ha).
    destruct (JSON_parse (text request)) as [interaction | ];
      [ | left; reflexivity ].
    unfold prepend. cbn [trace].
    destruct (route_trace interaction env s) as [E | (key & found & Hk & E)];
      rewrite E.
    + left. apply app_nil_r.
    + right. exists key, found. auto.
Qed.

(** X5: the command name is converted to a string before the table is
    read and before it is quoted.  Whatever value [data.name] holds, its
    numbers being integers a double holds exactly, the run is the call of
    what the table finds under its string form, or the "Unknown command"
    reply quoting that string form. *)
Theorem command_name_is_read_as_a_string
    (request : Request) (env : Env) (interaction data name : JsValue)
    (key : string) :
  authenticated' request env ->
  JSON_parse (text request) = Some interaction ->
  has_type interaction 2 ->
  Js.get interaction "data" = Fulfilled data ->
  Js.get data "name" = Fulfilled name ->
  writes_in_full name = true ->
  Js.to_string name = Fulfilled key ->
  fetch' request env module_scope =
    prepend auth_trace
      match object_get (COMMAND_HANDLERS module_scope) key with
      | Some found => invoke key found interaction env module_scope
      | None =>
          mkRun module_scope []
            (Fulfilled
               (RetResponse
                  (jsonResponse (ephemeralMessage ("Unknown command: " ++ key)) 200)))
      end.
Proof.
  intros Ha Hp Ht Hd Hn _ Hk.
  rewrite (fetch_authenticated _ _ request env module_scope Ha), Hp.
  rewrite (route_command_key interaction data name key env module_scope Ht Hd Hn Hk).
  reflexivity.
Qed.

End Dispatch.

(** ** Which handler is of which kind *)




(** A handler for [login] that validated nothing and always answered the
    placeholder would not pass: kind (a) is not kind (b). *)
Lemma login_is_not_a_placeholder_handler :
  ~ placeholder_handler "login" (call Fn_handleLoginCommand).
Proof.
  intros (r & _ & H).
  pose proof (H (JObj [("data", JObj [])]) Sample.env module_scope) as H1.
  pose proof (H (JObj
                   [("data",
                      JObj
                        [("options",
                           JArr [JObj [("name", JStr "auth_key");
                                       ("value", JStr "k")]])])])
                Sample.env module_scope) as H2.
  vm_compute in H1. vm_compute in H2. congruence.
Qed.

(** ** These theorems at concrete requests *)

(** C7, as the specification has it, fails on two signed logins that each
    hold an [auth_key] entry with the non-empty value "abc123": when an
    [auth_key] entry with an empty value comes first the answer is "Auth
    key is required", and when a [null] entry comes first the handler
    throws and no response is made. *)
Lemma a_later_auth_key_is_not_read :
  (authenticated Sample.verifyKey MoreSamples.login_two_keys Sample.env /\
   Sample.JSON_parse (text MoreSamples.login_two_keys) =
     Some
       (JObj
          [("type", JNum 2);
           ("data",
             JObj
               [("name", JStr "login");
                ("options",
                  JArr
                    [ JObj [("name", JStr "auth_key"); ("value", JStr "")];
                      JObj [("name", JStr "auth_key"); ("value", JStr "abc123")] ])])]) /\
   outcome (Sample.run MoreSamples.login_two_keys) = Fulfilled auth_key_required /\
   auth_key_required <> RetResponse (featureComingSoonResponse "login")) /\
  (authenticated Sample.verifyKey MoreSamples.login_null_then_key Sample.env /\
   Sample.JSON_parse (text MoreSamples.login_null_then_key) =
     Some
       (JObj
          [("type", JNum 2);
           ("data",
             JObj
               [("name", JStr "login");
                ("options",
                  JArr
                    [ JNull;
                      JObj [("name", JStr "auth_key"); ("value", JStr "abc123")] ])])]) /\
   outcome (Sample.run MoreSamples.login_null_then_key) = Rejected TypeError).
Proof.
  split.
  - split; [ sample_authenticated | ].
    split; [ vm_compute; reflexivity | ].
    split; [ vm_compute; reflexivity | ].
    vm_compute. discriminate.
  - split; [ sample_authenticated | ].
    split; vm_compute; reflexivity.
Qed.

Lemma login_with_first_key_is_in_development_witness :
  exists r d e,
    outcome (Sample.run MoreSamples.login_key_second) = Fulfilled r /\
    is_json_ok r = true /\
    envelope r = Some d /\
    ephemeral d = true /\
    embeds_of d = [e] /\
    field e "title" = JStr "Feature in Development" /\
    mentions "login" (text_field e "description") = true.
Proof.
  apply (login_with_first_key_is_in_development Sample.verifyKey Sample.JSON_parse
           MoreSamples.login_key_second Sample.env
           (JObj [("type", JNum 2);
                  ("data",
                    JObj [("name", JStr "login");
                          ("options",
                            JArr [ JObj [("name", JStr "note"); ("value", JStr "x")];
                                   JObj [("name", JStr "auth_key");
                                         ("value", JStr "abc123")] ])])])
           (JObj [("name", JStr "login");
                  ("options",
                    JArr [ JObj [("name", JStr "note"); ("value", JStr "x")];
                           JObj [("name", JStr "auth_key");
                                 ("value", JStr "abc123")] ])])).
  - sample_authenticated.
  - vm_compute. reflexivity.
  - split; [ | split ]; reflexivity.
  - exists (JObj [("name", JStr "login");
                  ("options",
                    JArr [ JObj [("name", JStr "note"); ("value", JStr "x")];
                           JObj [("name", JStr "auth_key");
                                 ("value", JStr "abc123")] ])]),
      [JObj [("name", JStr "note"); ("value", JStr "x")]],
      (JObj [("name", JStr "auth_key"); ("value", JStr "abc123")]),
      [].
    split; [ reflexivity | ].
    split; [ reflexivity | ].
    split; [ constructor; [ split; [ reflexivity | discriminate ] | constructor ] | ].
    split; reflexivity.
Defined.


Lemma collaborator_calls_follow_the_checks_witness :
  trace (Sample.run Sample.get_request) = [] /\
  trace (Sample.run Sample.unsigned_post) =
    [ EvHeadersGet "X-Signature-Ed25519"; EvHeadersGet "X-Signature-Timestamp" ] /\
  trace (Sample.run Sample.forged_post) =
    [ EvHeadersGet "X-Signature-Ed25519"; EvHeadersGet "X-Signature-Timestamp";
      EvText; EvVerifyKey ] /\
  (trace (Sample.run Sample.login_abc123) = auth_trace \/
   exists key found,
     object_get (COMMAND_HANDLERS module_scope) key = Some found /\
     trace (Sample.run Sample.login_abc123) = (auth_trace ++ [EvCall key found])%list).
Proof.
  split; [ | split; [ | split ] ].
  - apply (proj1 (collaborator_calls_follow_the_checks Sample.verifyKey
                    Sample.JSON_parse Sample.get_request Sample.env module_scope)).
    discriminate.
  - apply (proj1 (proj2 (collaborator_calls_follow_the_checks Sample.verifyKey
                           Sample.JSON_parse Sample.unsigned_post Sample.env
                           module_scope))).
    + reflexivity.
    + left. reflexivity.
  - apply (proj1 (proj2 (proj2 (collaborator_calls_follow_the_checks
                                  Sample.verifyKey Sample.JSON_parse
                                  Sample.forged_post Sample.env module_scope)))).
    + reflexivity.
    + reflexivity.
    + reflexivity.
    + reflexivity.
  - apply (proj2 (proj2 (proj2 (collaborator_calls_follow_the_checks
                                  Sample.verifyKey Sample.JSON_parse
                                  Sample.login_abc123 Sample.env module_scope)))).
    sample_authenticated.
Defined.

Lemma command_name_is_read_as_a_string_witness :
  Sample.run MoreSamples.command_without_name =
    mkRun module_scope auth_trace
      (Fulfilled
         (RetResponse
            (jsonResponse (ephemeralMessage "Unknown command: undefined") 200))) /\
  Sample.run MoreSamples.command_named_by_number =
    mkRun module_scope auth_trace
      (Fulfilled
         (RetResponse
            (jsonResponse (ephemeralMessage "Unknown command: 42") 200))) /\
  Sample.run MoreSamples.command_named_by_array =
    mkRun module_scope
      (auth_trace ++ [EvCall "ping" (PFunction Fn_handlePingCommand)])
      (Fulfilled (RetResponse (jsonResponse pingData 200))).
Proof.
  split; [ | split ].
  - unfold Sample.run.
    rewrite (command_name_is_read_as_a_string Sample.verifyKey Sample.JSON_parse
               MoreSamples.command_without_name Sample.env
               (JObj [("type", JNum 2); ("data", JObj [])]) (JObj []) JUndefined
               "undefined");
      [ reflexivity
      | sample_authenticated
      | vm_compute; reflexivity
      | reflexivity | reflexivity | reflexivity | reflexivity | reflexivity ].
  - unfold Sample.run.
    rewrite (command_name_is_read_as_a_string Sample.verifyKey Sample.JSON_parse
               MoreSamples.command_named_by_number Sample.env
               (JObj [("type", JNum 2); ("data", JObj [("name", JNum 42)])])
               (JObj [("name", JNum 42)]) (JNum 42)
               "42");
      [ reflexivity
      | sample_authenticated
      | vm_compute; reflexivity
      | reflexivity | reflexivity | reflexivity | reflexivity | reflexivity ].
  - unfold Sample.run.
    rewrite (command_name_is_read_as_a_string Sample.verifyKey Sample.JSON_parse
               MoreSamples.command_named_by_array Sample.env
               (JObj [("type", JNum 2);
                      ("data", JObj [("name", JArr [JStr "ping"])])])
               (JObj [("name", JArr [JStr "ping"])]) (JArr [JStr "ping"])
               "ping");
      [ reflexivity
      | sample_authenticated
      | vm_compute; reflexivity
      | reflexivity | reflexivity | reflexivity | reflexivity | reflexivity ].
Defined.
